(** * The generative media client of services/geminiService.ts

    A shallow embedding of the request/response wrapper around the hosted
    model API: the transport encoder, the response normalisation and the six
    exported operations, followed by the properties the specification states
    about them.

    Conventions.
    - A JavaScript string is a [string]: a sequence of code units, of which
      the 256 lowest are representable.
    - A JavaScript number is a binary64 [float].
    - A value that may be [undefined] or [null] is an [option].
    - An async function is a computation in [Async]: it completes as
      [Fulfilled] or [Rejected] and leaves a trace of the requests it issued
      and of what it wrote to the console.
    - What the module imports or finds in the browser (the SDK client,
      FileReader, the canvas, JSON.parse, Number) is a field of the class
      [Environment]. *)

From Stdlib Require Import String Ascii List Bool Arith Lia PrimFloat.
Import ListNotations.
Local Open Scope string_scope.

(* ================================================================= *)
(** ** JavaScript strings *)

Definition dquote : string := String "034"%char EmptyString.

(** Truthiness of a string: every string but the empty one. *)
Definition truthy (s : string) : bool :=
  match s with
  | EmptyString => false
  | String _ _ => true
  end.

(** Truthiness of [string | null | undefined]. *)
Definition truthy_opt (o : option string) : bool :=
  match o with
  | Some s => truthy s
  | None => false
  end.

(** What a template literal prints for [string | undefined]. *)
Definition template_value (o : option string) : string :=
  match o with
  | Some s => s
  | None => "undefined"
  end.

(** White space and line terminators of ECMAScript among the representable
    code units: TAB, LF, VT, FF, CR, SP and NBSP. *)
Definition isWhiteSpace (c : ascii) : bool :=
  let n := nat_of_ascii c in
  ((n =? 9) || (n =? 10) || (n =? 11) || (n =? 12) || (n =? 13)
   || (n =? 32) || (n =? 160))%nat.

Fixpoint trimStart (s : string) : string :=
  match s with
  | EmptyString => EmptyString
  | String c s' => if isWhiteSpace c then trimStart s' else s
  end.

Fixpoint trimEnd (s : string) : string :=
  match s with
  | EmptyString => EmptyString
  | String c s' =>
      match trimEnd s' with
      | EmptyString => if isWhiteSpace c then EmptyString else String c EmptyString
      | t => String c t
      end
  end.

(** [String.prototype.trim]. *)
Definition trim (s : string) : string := trimEnd (trimStart s).

(** A string made of white space only (the empty string included). *)
Fixpoint all_white_space (s : string) : bool :=
  match s with
  | EmptyString => true
  | String c s' => isWhiteSpace c && all_white_space s'
  end.

(** [String.prototype.split] with a separator of one code unit: the pieces
    between the separators, always at least one. *)
Fixpoint split (sep : ascii) (s : string) : list string :=
  match s with
  | EmptyString => [EmptyString]
  | String c s' =>
      if Ascii.eqb c sep then EmptyString :: split sep s'
      else match split sep s' with
           | [] => [String c EmptyString]
           | piece :: pieces => String c piece :: pieces
           end
  end.

(** The code unit [c] occurs in [s]. *)
Fixpoint occurs (c : ascii) (s : string) : bool :=
  match s with
  | EmptyString => false
  | String c' s' => Ascii.eqb c' c || occurs c s'
  end.

(* ================================================================= *)
(** ** JavaScript values and thrown values *)

(** The values JSON.parse can produce, and [undefined]. *)
#[warnings="-register-all"]
Inductive JsValue : Type :=
| JsUndefined
| JsNull
| JsBoolean (b : bool)
| JsNumber (x : float)
| JsString (s : string)
| JsArray (elements : list JsValue)
| JsObject (properties : list (string * JsValue)).

(** ToBoolean. *)
Definition js_truthy (v : JsValue) : bool :=
  match v with
  | JsUndefined | JsNull => false
  | JsBoolean b => b
  | JsNumber x => negb (PrimFloat.eqb x 0%float || PrimFloat.is_nan x)
  | JsString s => truthy s
  | JsArray _ | JsObject _ => true
  end.

(** What a [catch] clause can receive: an instance of Error (of the class
    [name], with its [message]) or any other value. *)
Inductive Thrown : Type :=
| ErrorObject (name : string) (message : string)
| ThrownValue (v : JsValue).

(** [new Error(message)]. *)
Definition new_Error (message : string) : Thrown := ErrorObject "Error" message.

(* ================================================================= *)
(** ** Data model *)

(** A DOM Blob, and a File, which is a Blob with a name. *)
Record Blob : Type := { blob_type : string; blob_content : string }.
Record File : Type := { file_name : string; file_blob : Blob }.

Definition file_type (f : File) : string := blob_type (file_blob f).

(** [File | Blob]: the constructor is what [instanceof File] tests. *)
Inductive FileOrBlob : Type :=
| AFile (f : File)
| ABlob (b : Blob).

(** Parts of a request or of a response. *)
Record InlineData : Type := { data : option string; mimeType : string }.
Record Part : Type := { part_inlineData : option InlineData; part_text : option string }.

Definition inline_part (d : InlineData) : Part :=
  {| part_inlineData := Some d; part_text := None |}.
Definition text_part (t : string) : Part :=
  {| part_inlineData := None; part_text := Some t |}.

Inductive Modality : Type := IMAGE | TEXT.

(** Response schemas, as far as the client builds them. *)
#[warnings="-register-all"]
Inductive Schema : Type :=
| STRING
| ARRAY (items : Schema) (description : option string)
| OBJECT (properties : list (string * Schema)).

Record GenerateContentConfig : Type := {
  responseModalities : option (list Modality);
  responseMimeType : option string;
  responseSchema : option Schema
}.

Record GenerateContentParameters : Type := {
  content_model : string;
  content_parts : list Part;
  content_config : GenerateContentConfig
}.

Record GenerateImagesParameters : Type := {
  images_model : string;
  images_prompt : string;
  numberOfImages : float;
  outputMimeType : string;
  aspectRatio : string
}.

(** Responses, with the fields the client reads. The candidate list, the
    content of a candidate and the parts of a content may each be missing;
    the client tests the first and reads the other two without a test. *)
Record Content : Type := { parts : option (list Part) }.
Record Candidate : Type := { content : option Content }.
Record GenerateContentResponse : Type := {
  candidates : option (list Candidate);
  response_text : option string
}.

Record Image : Type := { imageBytes : string }.
Record GeneratedImage : Type := { image : Image }.
Record GenerateImagesResponse : Type := {
  generatedImages : option (list GeneratedImage)
}.

(** The aspect ratios generateImages accepts. *)
Inductive AspectRatio : Type := Ratio_1_1 | Ratio_16_9 | Ratio_9_16 | Ratio_4_3 | Ratio_3_4.

Definition aspect_ratio_string (r : AspectRatio) : string :=
  match r with
  | Ratio_1_1 => "1:1"
  | Ratio_16_9 => "16:9"
  | Ratio_9_16 => "9:16"
  | Ratio_4_3 => "4:3"
  | Ratio_3_4 => "3:4"
  end.

(** The normalised result [{ image, text }]. *)
Record EditResult : Type := { result_image : option string; result_text : option string }.

(* ================================================================= *)
(** ** Response normalisation *)

Definition no_content_message : string :=
  "No content was generated. The request may have been blocked.".

Definition png_data_url (bytes : string) : string := "data:image/png;base64," ++ bytes.

(** The body of the loop over the parts: the two assignments. *)
Definition scan_part (st : option string * option string) (part : Part)
  : option string * option string :=
  let (editedImageBase64, responseText) := st in
  let editedImageBase64 :=
    match part_inlineData part with
    | Some inlineData => Some (png_data_url (template_value (data inlineData)))
    | None => editedImageBase64
    end in
  let responseText :=
    if truthy_opt (part_text part) then part_text part else responseText in
  (editedImageBase64, responseText).

(* ================================================================= *)
(** ** Async computations *)

(** What an operation leaves behind: the requests sent to the model
    endpoint and the lines written with console.error, in order. *)
Inductive Event : Type :=
| Request_generateContent (params : GenerateContentParameters)
| Request_generateImages (params : GenerateImagesParameters)
| Console_error (label : string) (error : Thrown).

(** How a promise (or a synchronous call that may throw) settles. *)
Inductive Settled (A : Type) : Type :=
| Fulfilled (value : A)
| Rejected (reason : Thrown).
Arguments Fulfilled {A} value.
Arguments Rejected {A} reason.

Definition Async (A : Type) : Type := (list Event * Settled A)%type.

Definition trace {A : Type} (m : Async A) : list Event := fst m.
Definition outcome {A : Type} (m : Async A) : Settled A := snd m.

Definition resolve {A : Type} (a : A) : Async A := ([], Fulfilled a).
Definition throw {A : Type} (e : Thrown) : Async A := ([], Rejected e).
Definition settle {A : Type} (s : Settled A) : Async A := ([], s).

Definition bind {A B : Type} (m : Async A) (k : A -> Async B) : Async B :=
  match m with
  | (tr, Fulfilled a) => let (tr', s) := k a in ((tr ++ tr')%list, s)
  | (tr, Rejected e) => (tr, Rejected e)
  end.

Notation "'let*' x ':=' m 'in' k" := (bind m (fun x => k))
  (at level 10, x name, m at level 100, k at level 200).

(** [try { body } catch (error) { handler }]. *)
Definition try_catch {A : Type} (body : Async A) (handler : Thrown -> Async A) : Async A :=
  match body with
  | (tr, Rejected error) => let (tr', s) := handler error in ((tr ++ tr')%list, s)
  | (tr, Fulfilled a) => (tr, Fulfilled a)
  end.

Definition console_error (label : string) (error : Thrown) : Async unit :=
  ([Console_error label error], Fulfilled tt).

(** [Promise.all] over promises started in list order. *)
Fixpoint Promise_all {A : Type} (ps : list (Async A)) : Async (list A) :=
  match ps with
  | [] => resolve []
  | p :: ps' =>
      let* a := p in
      let* rest := Promise_all ps' in
      resolve (a :: rest)
  end.

(** The requests among the events of a trace. *)
Definition is_request (ev : Event) : bool :=
  match ev with
  | Request_generateContent _ | Request_generateImages _ => true
  | Console_error _ _ => false
  end.

Definition requests (tr : list Event) : list Event := filter is_request tr.

(** The message of the error a catch clause re-raises: that of the caught
    value when it is an instance of Error, the default otherwise. *)
Definition caught_message (default_message : string) (error : Thrown) : string :=
  match error with
  | ErrorObject _ message => message
  | ThrownValue _ => default_message
  end.

(** The catch clause every operation ends with. *)
Definition log_and_rethrow {A : Type} (label default_message : string) (error : Thrown)
  : Async A :=
  let* _ := console_error label error in
  let message := caught_message default_message error in
  throw (new_Error message).

(* ================================================================= *)
(** ** The environment of the module *)

(** What the module calls and does not define.
    - [readAsDataURL file]: [reader.result] when [onloadend] fires, when it is
      a string.
    - [Number]: the conversion of a string to a number.
    - [canvas_toDataURL w h]: what [toDataURL('image/png')] returns for a new
      canvas element once [w] and [h] are assigned to its width and height
      and it is cleared.
    - [generateContent_reply], [generateImages_reply]: how the endpoint
      settles a request.
    - [JSON_parse]: the parsed value, or the SyntaxError.
    - [TypeError_message]: the message of the TypeError raised on reading a
      property of null.
    - [TypeError_parts_of_undefined]: the message of the TypeError raised on
      reading [parts] of an undefined content.
    - [TypeError_not_iterable]: the message of the TypeError raised by a
      for-of loop over undefined. *)
Class Environment : Type := {
  readAsDataURL : FileOrBlob -> option string;
  Number : string -> float;
  canvas_toDataURL : float -> float -> string;
  generateContent_reply : GenerateContentParameters -> Settled GenerateContentResponse;
  generateImages_reply : GenerateImagesParameters -> Settled GenerateImagesResponse;
  JSON_parse : string -> Settled JsValue;
  TypeError_message : string;
  TypeError_parts_of_undefined : string;
  TypeError_not_iterable : string
}.

Section Client.

Context {env : Environment}.

(** [ai.models.generateContent] and [ai.models.generateImages]. *)
Definition ai_models_generateContent (params : GenerateContentParameters)
  : Async GenerateContentResponse :=
  ([Request_generateContent params], generateContent_reply params).

Definition ai_models_generateImages (params : GenerateImagesParameters)
  : Async GenerateImagesResponse :=
  ([Request_generateImages params], generateImages_reply params).

(* ----------------------------------------------------------------- *)
(** *** processApiResponse *)

(** [response.candidates[0].content.parts], as the for-of loop receives it:
    reading [parts] of a missing content throws, and so does the loop over
    missing parts. *)
Definition read_parts (candidate : Candidate) : Settled (list Part) :=
  match content candidate with
  | None => Rejected (ErrorObject "TypeError" TypeError_parts_of_undefined)
  | Some content =>
      match parts content with
      | None => Rejected (ErrorObject "TypeError" TypeError_not_iterable)
      | Some ps => Fulfilled ps
      end
  end.

Definition processApiResponse (response : GenerateContentResponse) : Settled EditResult :=
  let scanned :=
    match candidates response with
    | Some (candidate :: _) =>
        match read_parts candidate with
        | Fulfilled ps => Fulfilled (fold_left scan_part ps (None, None))
        | Rejected error => Rejected error
        end
    | Some [] | None => Fulfilled (None, None)
    end in
  match scanned with
  | Fulfilled (editedImageBase64, responseText) =>
      let responseText :=
        if negb (truthy_opt editedImageBase64) && negb (truthy_opt responseText)
        then Some no_content_message
        else responseText in
      Fulfilled {| result_image := editedImageBase64; result_text := responseText |}
  | Rejected error => Rejected error
  end.

(* ----------------------------------------------------------------- *)
(** *** createBlankCanvas *)

Definition times_100 (x : option float) : float :=
  match x with
  | Some v => PrimFloat.mul v 100%float
  | None => PrimFloat.nan
  end.

Definition createBlankCanvas (aspectRatio : string) : option string :=
  let dims := map Number (split ":"%char aspectRatio) in
  let width := nth_error dims 0 in
  let height := nth_error dims 1 in
  let canvas_width := times_100 width in
  let canvas_height := times_100 height in
  nth_error (split ","%char (canvas_toDataURL canvas_width canvas_height)) 1.

(* ----------------------------------------------------------------- *)
(** *** fileToGenerativePart *)

(** [mimeType || (file instanceof File ? file.type : 'image/png')]. *)
Definition finalMimeType (file : FileOrBlob) (mimeType : option string) : string :=
  if truthy_opt mimeType then template_value mimeType
  else match file with
       | AFile f => file_type f
       | ABlob _ => "image/png"
       end.

Definition base64EncodedData (file : FileOrBlob) : option string :=
  match readAsDataURL file with
  | Some result => nth_error (split ","%char result) 1
  | None => Some EmptyString
  end.

Definition fileToGenerativePart (file : FileOrBlob) (mimeType : option string) : Async Part :=
  resolve (inline_part {| data := base64EncodedData file;
                          mimeType := finalMimeType file mimeType |}).

(* ----------------------------------------------------------------- *)
(** *** editImage and editImageWithMask *)

Definition image_model : string := "gemini-2.5-flash-image-preview".
Definition text_model : string := "gemini-2.5-flash".

Definition image_and_text_config : GenerateContentConfig :=
  {| responseModalities := Some [IMAGE; TEXT];
     responseMimeType := None;
     responseSchema := None |}.

Definition editImage (imageFile : File) (prompt : string) : Async EditResult :=
  try_catch
    (let* imagePart := fileToGenerativePart (AFile imageFile) None in
     let textPart := text_part prompt in
     let* response :=
       ai_models_generateContent
         {| content_model := image_model;
            content_parts := [imagePart; textPart];
            content_config := image_and_text_config |} in
     settle (processApiResponse response))
    (log_and_rethrow "Error editing image:"
       "An unexpected error occurred while communicating with the AI.").

Definition editImageWithMask (imageFile : File) (maskBlob : Blob) (prompt : string)
  : Async EditResult :=
  try_catch
    (let* imagePart := fileToGenerativePart (AFile imageFile) None in
     let* maskPart := fileToGenerativePart (ABlob maskBlob) (Some "image/png") in
     let textPart := text_part prompt in
     let* response :=
       ai_models_generateContent
         {| content_model := image_model;
            content_parts := [imagePart; maskPart; textPart];
            content_config := image_and_text_config |} in
     settle (processApiResponse response))
    (log_and_rethrow "Error editing image with mask:"
       "An unexpected error occurred while communicating with the AI.").

(* ----------------------------------------------------------------- *)
(** *** getCreativeIdeas *)

Definition ideas_config (description : option string) : GenerateContentConfig :=
  {| responseModalities := None;
     responseMimeType := Some "application/json";
     responseSchema := Some (OBJECT [("ideas", ARRAY STRING description)]) |}.

Definition creative_ideas_instruction : string :=
  "You are a creative photo editing assistant. Analyze the following image and provide 3-4 distinct, creative ideas for how to edit it. Each idea should be a short, actionable sentence that can be used as a prompt for an AI image editor. Return the ideas as a JSON array of strings.".

Fixpoint own_property (key : string) (properties : list (string * JsValue)) : JsValue :=
  match properties with
  | [] => JsUndefined
  | (k, v) :: rest => if String.eqb k key then v else own_property key rest
  end.

(** [result.ideas] for a parsed value: a TypeError on null, the property of
    an object, undefined on the other values (no prototype defines ideas). *)
Definition get_ideas (result : JsValue) : Async JsValue :=
  match result with
  | JsNull | JsUndefined => throw (ErrorObject "TypeError" TypeError_message)
  | JsObject properties => resolve (own_property "ideas" properties)
  | JsBoolean _ | JsNumber _ | JsString _ | JsArray _ => resolve JsUndefined
  end.

Definition getCreativeIdeas (imageFile : File) : Async JsValue :=
  try_catch
    (let* imagePart := fileToGenerativePart (AFile imageFile) None in
     let* response :=
       ai_models_generateContent
         {| content_model := text_model;
            content_parts := [text_part creative_ideas_instruction; imagePart];
            content_config := ideas_config None |} in
     let jsonString := response_text response in
     if truthy_opt jsonString then
       let* result := settle (JSON_parse (template_value jsonString)) in
       let* ideas := get_ideas result in
       resolve (if js_truthy ideas then ideas else JsNull)
     else resolve JsNull)
    (log_and_rethrow "Error getting creative ideas:"
       "An unexpected error occurred while generating ideas.").

(* ----------------------------------------------------------------- *)
(** *** generateImages *)

Definition generateImages (prompt : string) (count : float) (ratio : AspectRatio)
  : Async (list string) :=
  try_catch
    (if negb (truthy (trim prompt)) then throw (new_Error "Prompt cannot be empty.")
     else
       let* response :=
         ai_models_generateImages
           {| images_model := "imagen-4.0-generate-001";
              images_prompt := prompt;
              numberOfImages := count;
              outputMimeType := "image/png";
              aspectRatio := aspect_ratio_string ratio |} in
       match generatedImages response with
       | None | Some [] =>
           throw (new_Error
             "The AI did not generate any images. This might be due to the safety policy.")
       | Some imgs =>
           resolve (map (fun img => png_data_url (imageBytes (image img))) imgs)
       end)
    (log_and_rethrow "Error generating images:"
       "An unexpected error occurred while generating images.").

(* ----------------------------------------------------------------- *)
(** *** generateImageWithReference *)

Definition fullPrompt (prompt : string) : string :=
  "Please fill the provided blank transparent canvas with a new image. Use the other reference images as strong inspiration for the style, mood, and subject matter. Follow this specific instruction for the content: "
  ++ dquote ++ prompt ++ dquote
  ++ ". The final output must be a single, complete image that perfectly fits the dimensions of the initial blank canvas.".

Definition blank_canvas_part (ratio : string) : Part :=
  inline_part {| data := createBlankCanvas ratio; mimeType := "image/png" |}.

(** [files] is an array, so [!files] is false and the first test is the one
    on its length. *)
Definition generateImageWithReference (files : list File) (prompt : string) (ratio : string)
  : Async (list string) :=
  try_catch
    (if (length files =? 0)%nat
     then throw (new_Error "Please provide at least one reference image.")
     else if negb (truthy (trim prompt)) then throw (new_Error "Prompt cannot be empty.")
     else
       let canvasPart := blank_canvas_part ratio in
       let* imageParts :=
         Promise_all (map (fun file => fileToGenerativePart (AFile file) None) files) in
       let textPart := text_part (fullPrompt prompt) in
       let* response :=
         ai_models_generateContent
           {| content_model := image_model;
              content_parts := (canvasPart :: imageParts ++ [textPart])%list;
              content_config := image_and_text_config |} in
       let* result := settle (processApiResponse response) in
       if truthy_opt (result_image result)
       then resolve [template_value (result_image result)]
       else throw (new_Error
              (if truthy_opt (result_text result) then template_value (result_text result)
               else "The AI could not generate an image from your request.")))
    (log_and_rethrow "Error generating image with reference:"
       "An unexpected error occurred while generating the image.").

(* ----------------------------------------------------------------- *)
(** *** generatePromptIdeas *)

Record PromptForm : Type := {
  productName : string;
  productPosition : string;
  additionalInfo : string
}.

Definition newline : string := String "010"%char EmptyString.

(** [a || b] on strings. *)
Definition js_or (a b : string) : string := if truthy a then a else b.

Definition image_only_template : string :=
  newline
  ++ "        You are an expert prompt writer for an AI image generator." ++ newline
  ++ "        Analyze the following image(s) closely. Based *only* on the visual information (style, subject, composition, lighting, colors), generate 4 distinct, creative, and detailed prompt ideas in English." ++ newline
  ++ "        The prompts should describe how to create a similar or inspired image." ++ newline
  ++ "        Return the ideas as a JSON object with a single key " ++ dquote ++ "ideas" ++ dquote ++ " which is an array of 4 strings." ++ newline
  ++ "      ".

Definition form_template (productName productPosition additionalInfo : string) : string :=
  newline
  ++ "        You are an expert prompt writer for an AI image generator, specializing in stunning product photography for small businesses (UMKM)." ++ newline
  ++ "        Based on the following information, generate 4 distinct, creative, and detailed prompt ideas." ++ newline
  ++ "        The prompts should be in English." ++ newline
  ++ newline
  ++ "        Product Name: " ++ dquote ++ productName ++ dquote ++ newline
  ++ "        Product Position/Action: " ++ dquote ++ productPosition ++ dquote ++ newline
  ++ "        Additional Details (style, background, mood, colors): " ++ dquote ++ additionalInfo ++ dquote ++ newline
  ++ newline
  ++ "        Return the ideas as a JSON object with a single key " ++ dquote ++ "ideas" ++ dquote ++ " which is an array of 4 strings." ++ newline
  ++ "      ".

Definition prompt_ideas_description : string :=
  "An array of 4 distinct and creative prompt ideas for product photography.".

Definition invalid_ideas_message : string :=
  "The AI did not return valid prompt ideas. Please try again.".

(** [result.ideas && Array.isArray(result.ideas) && result.ideas.length > 0],
    with the array at hand when the test holds. *)
Definition nonempty_array (ideas : JsValue) : option (list JsValue) :=
  if js_truthy ideas then
    match ideas with
    | JsArray elements => if (0 <? length elements)%nat then Some elements else None
    | _ => None
    end
  else None.

(** [returned] is the array of the return statement inside the two tests on
    the reply, when that statement is reached; the throw after them runs
    otherwise. *)
Definition generatePromptIdeas (formData : PromptForm) (referenceImages : list File)
  : Async (list JsValue) :=
  try_catch
    (let productName := productName formData in
     let productPosition := productPosition formData in
     let additionalInfo := additionalInfo formData in
     let hasTextData := js_or (js_or productName productPosition) additionalInfo in
     if negb (truthy hasTextData) && (length referenceImages =? 0)%nat
     then throw (new_Error
            "Please provide some information or a reference image to generate ideas.")
     else
       let textPrompt :=
         if (0 <? length referenceImages)%nat && negb (truthy hasTextData)
         then image_only_template
         else form_template productName productPosition additionalInfo in
       let textPart := text_part textPrompt in
       let* imageParts :=
         Promise_all
           (map (fun file => fileToGenerativePart (AFile file) None) referenceImages) in
       let* response :=
         ai_models_generateContent
           {| content_model := text_model;
              content_parts := textPart :: imageParts;
              content_config := ideas_config (Some prompt_ideas_description) |} in
       let jsonString := response_text response in
       let* returned :=
         (if truthy_opt jsonString then
            let* result := settle (JSON_parse (template_value jsonString)) in
            let* ideas := get_ideas result in
            resolve (nonempty_array ideas)
          else resolve None) in
       match returned with
       | Some ideas => resolve ideas
       | None => throw (new_Error invalid_ideas_message)
       end)
    (log_and_rethrow "Error generating prompt ideas:"
       "An unexpected error occurred while generating ideas.").

(* ----------------------------------------------------------------- *)
(** *** The six operations as one family *)

Inductive Operation : Type :=
| EditImage (imageFile : File) (prompt : string)
| EditImageWithMask (imageFile : File) (maskBlob : Blob) (prompt : string)
| GetCreativeIdeas (imageFile : File)
| GenerateImages (prompt : string) (count : float) (ratio : AspectRatio)
| GenerateImageWithReference (files : list File) (prompt : string) (ratio : string)
| GeneratePromptIdeas (formData : PromptForm) (referenceImages : list File).

Inductive OperationResult : Type :=
| Edited (result : EditResult)
| Ideas (ideas : JsValue)
| DataUrls (urls : list string)
| PromptIdeas (ideas : list JsValue).

(** An operation with its result tagged; trace and rejection are its own. *)
Definition tagged {A : Type} (tag : A -> OperationResult) (m : Async A)
  : Async OperationResult :=
  match m with
  | (tr, Fulfilled a) => (tr, Fulfilled (tag a))
  | (tr, Rejected e) => (tr, Rejected e)
  end.

Definition run (op : Operation) : Async OperationResult :=
  match op with
  | EditImage imageFile prompt => tagged Edited (editImage imageFile prompt)
  | EditImageWithMask imageFile maskBlob prompt =>
      tagged Edited (editImageWithMask imageFile maskBlob prompt)
  | GetCreativeIdeas imageFile => tagged Ideas (getCreativeIdeas imageFile)
  | GenerateImages prompt count ratio => tagged DataUrls (generateImages prompt count ratio)
  | GenerateImageWithReference files prompt ratio =>
      tagged DataUrls (generateImageWithReference files prompt ratio)
  | GeneratePromptIdeas formData referenceImages =>
      tagged PromptIdeas (generatePromptIdeas formData referenceImages)
  end.

(** The default message of each operation's catch clause. *)
Definition default_message (op : Operation) : string :=
  match op with
  | EditImage _ _ | EditImageWithMask _ _ _ =>
      "An unexpected error occurred while communicating with the AI."
  | GetCreativeIdeas _ | GeneratePromptIdeas _ _ =>
      "An unexpected error occurred while generating ideas."
  | GenerateImages _ _ _ => "An unexpected error occurred while generating images."
  | GenerateImageWithReference _ _ _ =>
      "An unexpected error occurred while generating the image."
  end.

(** The failure of the call an event records, when that call failed. *)
Definition call_failure (ev : Event) : option Thrown :=
  match ev with
  | Request_generateContent params =>
      match generateContent_reply params with
      | Rejected error => Some error
      | Fulfilled _ => None
      end
  | Request_generateImages params =>
      match generateImages_reply params with
      | Rejected error => Some error
      | Fulfilled _ => None
      end
  | Console_error _ _ => None
  end.

End Client.

(* ================================================================= *)
(** ** Vocabulary of the specification *)

(** The first candidate of a response, when there is one. *)
Definition first_candidate (response : GenerateContentResponse) : option Candidate :=
  match candidates response with
  | Some (candidate :: _) => Some candidate
  | Some [] | None => None
  end.

(** The parts normalisation looks at: those of the first candidate, when
    that candidate has a content with parts; none when the response has no
    candidate. A first candidate without content, or with a content without
    parts, has no parts to look at. *)
Definition response_parts (response : GenerateContentResponse) : option (list Part) :=
  match candidates response with
  | Some (candidate :: _) =>
      match content candidate with
      | Some c => parts c
      | None => None
      end
  | Some [] | None => Some []
  end.

(** A part carries binary payload when it has inline data, and carries text
    when its text is a non-empty string. *)
Definition carries_image (part : Part) : bool :=
  match part_inlineData part with
  | Some _ => true
  | None => false
  end.

Definition carries_text (part : Part) : bool := truthy_opt (part_text part).

Definition first_part (carries : Part -> bool) (ps : list Part) : option Part :=
  find carries ps.

Definition last_part (carries : Part -> bool) (ps : list Part) : option Part :=
  find carries (rev ps).

(** The image result built from a part. *)
Definition image_of (part : Part) : option string :=
  match part_inlineData part with
  | Some inlineData => Some (png_data_url (template_value (data inlineData)))
  | None => None
  end.

(** The [type] property of the source object, File or Blob. *)
Definition source_type (file : FileOrBlob) : string :=
  match file with
  | AFile f => file_type f
  | ABlob b => blob_type b
  end.

(** The label the contract of the transport encoder describes: the override
    when one is given, else the type the source object carries, else PNG. *)
Definition label_by_contract (file : FileOrBlob) (override : option string) : string :=
  match override with
  | Some m => m
  | None => if truthy (source_type file) then source_type file else "image/png"
  end.

(** The message a failure carries, as the contract of the catch clauses
    words it: the message of an Error when it is not empty, the message
    property of a thrown object when it is a non-empty string, and none
    otherwise; and the message the contract gives to the re-raised error. *)
Definition failure_message (error : Thrown) : option string :=
  match error with
  | ErrorObject _ message => if truthy message then Some message else None
  | ThrownValue (JsObject properties) =>
      match own_property "message" properties with
      | JsString message => if truthy message then Some message else None
      | _ => None
      end
  | ThrownValue _ => None
  end.

Definition message_by_contract (default : string) (error : Thrown) : string :=
  match failure_message error with
  | Some message => message
  | None => default
  end.

(** The MIME type of a part with inline data. *)
Definition part_mimeType (part : Part) : option string :=
  match part_inlineData part with
  | Some inlineData => Some (mimeType inlineData)
  | None => None
  end.

(** The MIME type the transport encoder puts on the part it resolves to. *)
Definition encoded_label (m : Async Part) : option string :=
  match outcome m with
  | Fulfilled part => part_mimeType part
  | Rejected _ => None
  end.

(** The request generateImages sends for a prompt that passes its test. *)
Definition images_request (prompt : string) (count : float) (ratio : AspectRatio)
  : GenerateImagesParameters :=
  {| images_model := "imagen-4.0-generate-001";
     images_prompt := prompt;
     numberOfImages := count;
     outputMimeType := "image/png";
     aspectRatio := aspect_ratio_string ratio |}.

(** The data URL returned for a generated image. *)
Definition image_data_url (img : GeneratedImage) : string :=
  "data:image/png;base64," ++ imageBytes (image img).

(** The three form fields are empty. *)
Definition form_is_empty (formData : PromptForm) : bool :=
  negb (truthy (productName formData))
  && negb (truthy (productPosition formData))
  && negb (truthy (additionalInfo formData)).

(** The instruction text of a request: the text of its first part. *)
Definition instruction_text (ev : Event) : option string :=
  match ev with
  | Request_generateContent params =>
      match content_parts params with
      | part :: _ => part_text part
      | [] => None
      end
  | Request_generateImages _ | Console_error _ _ => None
  end.

(** A body fails as its call fails: whenever a request recorded in its
    trace failed, the body is rejected with that very failure. *)
Definition fails_as_its_call {env : Environment} {A : Type} (body : Async A) : Prop :=
  forall ev error,
    In ev (trace body) -> call_failure ev = Some error -> outcome body = Rejected error.

(** A string starts with the header of a PNG data URL. *)
Definition has_png_header (url : string) : bool :=
  String.prefix "data:image/png;base64," url.

(** The part a File is encoded to when no override is given, and the part a
    mask Blob is encoded to under the override of editImageWithMask. *)
Definition file_part {env : Environment} (file : File) : Part :=
  inline_part {| data := base64EncodedData (AFile file); mimeType := file_type file |}.

Definition mask_part {env : Environment} (maskBlob : Blob) : Part :=
  inline_part {| data := base64EncodedData (ABlob maskBlob); mimeType := "image/png" |}.

(** The requests of the operations that call generateContent. *)
Definition edit_request {env : Environment} (imageFile : File) (prompt : string)
  : GenerateContentParameters :=
  {| content_model := image_model;
     content_parts := [file_part imageFile; text_part prompt];
     content_config := image_and_text_config |}.

Definition mask_request {env : Environment} (imageFile : File) (maskBlob : Blob)
    (prompt : string) : GenerateContentParameters :=
  {| content_model := image_model;
     content_parts := [file_part imageFile; mask_part maskBlob; text_part prompt];
     content_config := image_and_text_config |}.

Definition creative_ideas_request {env : Environment} (imageFile : File)
  : GenerateContentParameters :=
  {| content_model := text_model;
     content_parts := [text_part creative_ideas_instruction; file_part imageFile];
     content_config := ideas_config None |}.

Definition reference_request {env : Environment} (files : list File) (prompt ratio : string)
  : GenerateContentParameters :=
  {| content_model := image_model;
     content_parts :=
       (blank_canvas_part ratio :: map file_part files ++ [text_part (fullPrompt prompt)])%list;
     content_config := image_and_text_config |}.

Definition prompt_ideas_request {env : Environment} (formData : PromptForm)
    (referenceImages : list File) : GenerateContentParameters :=
  {| content_model := text_model;
     content_parts :=
       text_part (if form_is_empty formData then image_only_template
                  else form_template (productName formData) (productPosition formData)
                         (additionalInfo formData))
       :: map file_part referenceImages;
     content_config := ideas_config (Some prompt_ideas_description) |}.

(** The label under which the catch clause of each operation writes to the
    console. *)
Definition console_label (op : Operation) : string :=
  match op with
  | EditImage _ _ => "Error editing image:"
  | EditImageWithMask _ _ _ => "Error editing image with mask:"
  | GetCreativeIdeas _ => "Error getting creative ideas:"
  | GenerateImages _ _ _ => "Error generating images:"
  | GenerateImageWithReference _ _ _ => "Error generating image with reference:"
  | GeneratePromptIdeas _ _ => "Error generating prompt ideas:"
  end.

(** The events of a trace that are lines of the console. *)
Definition console_lines (tr : list Event) : list Event :=
  filter (fun ev => negb (is_request ev)) tr.

(** An operation is well logged under a label and a default message when it
    sends at most one request, writes nothing to the console when it is
    fulfilled, and, when it is rejected, has written one line, last, with
    its label and the value it caught, and is rejected with a new Error made
    from that value. *)
Definition well_logged {A : Type} (label dflt : string) (m : Async A) : Prop :=
  (length (requests (trace m)) <= 1)%nat
  /\ (forall a, outcome m = Fulfilled a -> console_lines (trace m) = [])
  /\ (forall reason,
      outcome m = Rejected reason ->
      exists thrown,
        trace m = (requests (trace m) ++ [Console_error label thrown])%list
        /\ reason = new_Error (caught_message dflt thrown)).

(* ================================================================= *)
(** ** Sample inputs and environments *)

Definition digit_value (c : ascii) : option float :=
  match c with
  | "0"%char => Some 0%float | "1"%char => Some 1%float | "2"%char => Some 2%float
  | "3"%char => Some 3%float | "4"%char => Some 4%float | "5"%char => Some 5%float
  | "6"%char => Some 6%float | "7"%char => Some 7%float | "8"%char => Some 8%float
  | "9"%char => Some 9%float
  | _ => None
  end.

Fixpoint decimal_from (acc : float) (s : string) : float :=
  match s with
  | EmptyString => acc
  | String c s' =>
      match digit_value c with
      | Some d => decimal_from (PrimFloat.add (PrimFloat.mul acc 10%float) d) s'
      | None => PrimFloat.nan
      end
  end.

(** An environment for the examples: the reader prints the content after a
    data-URL header, numbers are read as decimal digits, the canvas exports a
    fixed payload, and the endpoint and the JSON parser are given. *)
Definition sample_env
  (content_reply : GenerateContentParameters -> Settled GenerateContentResponse)
  (images_reply : GenerateImagesParameters -> Settled GenerateImagesResponse)
  (parse : string -> Settled JsValue) : Environment :=
  {| readAsDataURL := fun file =>
       Some ("data:" ++ source_type file ++ ";base64,"
             ++ blob_content (match file with AFile f => file_blob f | ABlob b => b end));
     Number := decimal_from 0%float;
     canvas_toDataURL := fun _ _ => "data:image/png;base64,iVBORw0KGgo=";
     generateContent_reply := content_reply;
     generateImages_reply := images_reply;
     JSON_parse := parse;
     TypeError_message := "Cannot read properties of null (reading 'ideas')";
     TypeError_parts_of_undefined :=
       "Cannot read properties of undefined (reading 'parts')";
     TypeError_not_iterable := "undefined is not iterable" |}.

Definition no_content_reply (_ : GenerateContentParameters)
  : Settled GenerateContentResponse :=
  Fulfilled {| candidates := None; response_text := None |}.

Definition no_images_reply (_ : GenerateImagesParameters)
  : Settled GenerateImagesResponse :=
  Fulfilled {| generatedImages := None |}.

Definition no_parse (_ : string) : Settled JsValue :=
  Rejected (ErrorObject "SyntaxError" "Unexpected end of JSON input").

Definition response_of_parts (ps : list Part) : GenerateContentResponse :=
  {| candidates := Some [ {| content := Some {| parts := Some ps |} |} ];
     response_text := None |}.

Definition binary_part (bytes mime : string) : Part :=
  inline_part {| data := Some bytes; mimeType := mime |}.

Definition two_binary_parts : GenerateContentResponse :=
  response_of_parts [binary_part "AAAA" "image/jpeg"; binary_part "BBBB" "image/png"].

Definition two_text_parts : GenerateContentResponse :=
  response_of_parts [text_part "first"; text_part "second"].

Definition photo_jpeg : File :=
  {| file_name := "photo.jpg";
     file_blob := {| blob_type := "image/jpeg"; blob_content := "/9j/4AAQ" |} |}.

Definition untyped_file : File :=
  {| file_name := "scan.heic";
     file_blob := {| blob_type := EmptyString; blob_content := "AAAAGGZ0" |} |}.

Definition jpeg_blob : Blob := {| blob_type := "image/jpeg"; blob_content := "/9j/4AAQ" |}.

Definition two_images_reply (_ : GenerateImagesParameters)
  : Settled GenerateImagesResponse :=
  Fulfilled {| generatedImages :=
    Some [ {| image := {| imageBytes := "iVBOR1" |} |};
           {| image := {| imageBytes := "iVBOR2" |} |} ] |}.

Definition quota_error : Thrown := ErrorObject "ApiError" "Quota exceeded.".

Definition failing_content_reply (_ : GenerateContentParameters)
  : Settled GenerateContentResponse := Rejected quota_error.

Definition empty_form : PromptForm :=
  {| productName := EmptyString; productPosition := EmptyString;
     additionalInfo := EmptyString |}.

Definition coffee_form : PromptForm :=
  {| productName := "Kopi Gayo"; productPosition := EmptyString;
     additionalInfo := EmptyString |}.

Definition ideas_reply (body : string) (_ : GenerateContentParameters)
  : Settled GenerateContentResponse :=
  Fulfilled {| candidates := None; response_text := Some body |}.

Definition parse_as (v : JsValue) (_ : string) : Settled JsValue := Fulfilled v.

Definition thrown_string : Thrown := ThrownValue (JsString "socket closed").

Definition throwing_content_reply (_ : GenerateContentParameters)
  : Settled GenerateContentResponse := Rejected thrown_string.

(** The endpoint returns two images. *)
Definition two_images_env : Environment :=
  sample_env no_content_reply two_images_reply no_parse.

(** The endpoint rejects every request with an ApiError. *)
Definition failing_env : Environment :=
  sample_env failing_content_reply no_images_reply no_parse.

(** The endpoint rejects every request with a value that is no Error. *)
Definition throwing_env : Environment :=
  sample_env throwing_content_reply no_images_reply no_parse.

(** The endpoint replies with a JSON text that parses to [v]. *)
Definition ideas_json : string :=
  "{" ++ dquote ++ "ideas" ++ dquote ++ ":[...]}".

Definition ideas_env (v : JsValue) : Environment :=
  sample_env (ideas_reply ideas_json) no_images_reply (parse_as v).

Definition one_idea : JsValue :=
  JsObject [("ideas", JsArray [JsString "A studio shot on dark slate."])].

Definition no_idea : JsValue := JsObject [("ideas", JsArray [])].

(** The endpoint rejects every request with an Error without message, and
    with an object that carries a message and is no Error. *)
Definition empty_error : Thrown := ErrorObject "Error" EmptyString.

Definition message_object : Thrown :=
  ThrownValue (JsObject [("message", JsString "Quota exceeded.")]).

Definition empty_error_env : Environment :=
  sample_env (fun _ => Rejected empty_error) no_images_reply no_parse.

Definition message_object_env : Environment :=
  sample_env (fun _ => Rejected message_object) no_images_reply no_parse.

(** A first candidate without content, as a blocked answer has it. *)
Definition candidate_without_content : GenerateContentResponse :=
  {| candidates := Some [ {| content := None |} ]; response_text := None |}.

Definition content_without_parts : GenerateContentResponse :=
  {| candidates := Some [ {| content := Some {| parts := None |} |} ];
     response_text := None |}.

(** The endpoint answers every generateContent request with [response]. *)
Definition answering_env (response : GenerateContentResponse) : Environment :=
  sample_env (fun _ => Fulfilled response) no_images_reply no_parse.

(** Two candidates, the first with the parts of [two_binary_parts], and a
    text beside them. *)
Definition two_candidates : GenerateContentResponse :=
  {| candidates :=
       Some [ {| content := Some {| parts := Some [binary_part "AAAA" "image/jpeg";
                                                   binary_part "BBBB" "image/png"] |} |};
              {| content := Some {| parts := Some [text_part "another answer"] |} |} ];
     response_text := Some "another answer" |}.

Definition refusal : GenerateContentResponse :=
  response_of_parts [text_part "I cannot draw that."].

(** A reader that ends without a string, and one whose string has no
    comma. *)
Definition failed_reader_env : Environment :=
  {| readAsDataURL := fun _ => None;
     Number := decimal_from 0%float;
     canvas_toDataURL := fun _ _ => "data:image/png;base64,iVBORw0KGgo=";
     generateContent_reply := no_content_reply;
     generateImages_reply := no_images_reply;
     JSON_parse := no_parse;
     TypeError_message := "Cannot read properties of null (reading 'ideas')";
     TypeError_parts_of_undefined :=
       "Cannot read properties of undefined (reading 'parts')";
     TypeError_not_iterable := "undefined is not iterable" |}.

Definition odd_reader_env : Environment :=
  {| readAsDataURL := fun _ => Some "data:";
     Number := decimal_from 0%float;
     canvas_toDataURL := fun _ _ => "data:image/png;base64,iVBORw0KGgo=";
     generateContent_reply := no_content_reply;
     generateImages_reply := no_images_reply;
     JSON_parse := no_parse;
     TypeError_message := "Cannot read properties of null (reading 'ideas')";
     TypeError_parts_of_undefined :=
       "Cannot read properties of undefined (reading 'parts')";
     TypeError_not_iterable := "undefined is not iterable" |}.

(** A part that carries neither payload nor text. *)
Definition empty_text_part : Part := text_part EmptyString.

(* ================================================================= *)
(** ** Strings: trimming *)

Lemma trimStart_white_space (s : string) :
  all_white_space s = true -> trimStart s = EmptyString.
Proof.
  induction s as [| c s IH]; simpl; intros H.
  - reflexivity.
  - apply andb_true_iff in H as [Hc Hs]. rewrite Hc. exact (IH Hs).
Qed.

Lemma trimEnd_empty (s : string) :
  trimEnd s = EmptyString -> all_white_space s = true.
Proof.
  induction s as [| c s IH]; simpl; intros H.
  - reflexivity.
  - destruct (trimEnd s) eqn:E.
    + destruct (isWhiteSpace c); [| discriminate]. simpl. exact (IH eq_refl).
    + discriminate.
Qed.

Lemma trimStart_keeps_white_space (s : string) :
  all_white_space (trimStart s) = true -> all_white_space s = true.
Proof.
  induction s as [| c s IH]; simpl; intros H.
  - reflexivity.
  - destruct (isWhiteSpace c) eqn:Hc.
    + simpl. exact (IH H).
    + simpl in H. rewrite Hc in H. discriminate.
Qed.

(** A prompt is rejected by [!prompt.trim()] exactly when it is made of
    white space only. *)
Lemma trim_empty_iff (s : string) :
  trim s = EmptyString <-> all_white_space s = true.
Proof.
  unfold trim. split; intros H.
  - apply trimStart_keeps_white_space, trimEnd_empty, H.
  - rewrite (trimStart_white_space s H). reflexivity.
Qed.

Lemma truthy_false_iff (s : string) : truthy s = false <-> s = EmptyString.
Proof. destruct s; simpl; split; congruence. Qed.

Lemma blank_prompt_falsy (s : string) :
  all_white_space s = true -> truthy (trim s) = false.
Proof. intros H. apply truthy_false_iff, trim_empty_iff, H. Qed.

(* ================================================================= *)
(** ** Response normalisation *)

Lemma find_snoc {A : Type} (f : A -> bool) (l : list A) (x : A) :
  find f (rev (l ++ [x])) = if f x then Some x else find f (rev l).
Proof. rewrite rev_app_distr. reflexivity. Qed.

(** The loop leaves in each variable what the last part that assigns it
    wrote, or the initial value when no part does. *)
Lemma scan_parts_last (ps : list Part) (image0 text0 : option string) :
  fold_left scan_part ps (image0, text0)
  = (match last_part carries_image ps with
     | Some part => image_of part
     | None => image0
     end,
     match last_part carries_text ps with
     | Some part => part_text part
     | None => text0
     end).
Proof.
  unfold last_part.
  induction ps as [| part ps IH] using rev_ind.
  - reflexivity.
  - rewrite fold_left_app, IH, !find_snoc. simpl.
    unfold carries_image, carries_text, image_of.
    destruct (part_inlineData part) eqn:Ei, (truthy_opt (part_text part)) eqn:Et;
      cbn; rewrite ?Ei, ?Et; reflexivity.
Qed.

Lemma last_part_none (carries : Part -> bool) (ps : list Part) :
  (forall part, In part ps -> carries part = false) ->
  last_part carries ps = None.
Proof.
  intros H. unfold last_part.
  destruct (find carries (rev ps)) as [part |] eqn:E; [| reflexivity].
  apply find_some in E as [Hin Hc].
  rewrite (H part) in Hc; [discriminate | apply in_rev, Hin].
Qed.

Lemma image_of_truthy (part : Part) :
  carries_image part = true -> truthy_opt (image_of part) = true.
Proof.
  unfold carries_image, image_of. destruct (part_inlineData part); [| discriminate].
  reflexivity.
Qed.

Lemma last_part_carries (carries : Part -> bool) (ps : list Part) (part : Part) :
  last_part carries ps = Some part -> carries part = true.
Proof. unfold last_part. intros H. apply find_some in H. apply H. Qed.

Section Normalisation.

Context {env : Environment}.

(** What the function returns once the parts are read. *)
Lemma processApiResponse_parts (response : GenerateContentResponse) (ps : list Part) :
  response_parts response = Some ps ->
  processApiResponse response
  = Fulfilled
      (let (image, text) := fold_left scan_part ps (None, None) in
       {| result_image := image;
          result_text := if negb (truthy_opt image) && negb (truthy_opt text)
                         then Some no_content_message else text |}).
Proof.
  unfold processApiResponse, response_parts, read_parts.
  destruct (candidates response) as [[| candidate rest] |].
  - intros [= <-]. reflexivity.
  - destruct (content candidate) as [c |]; [| discriminate].
    destruct (parts c) as [ps' |]; [| discriminate]. intros [= <-].
    destruct (fold_left scan_part ps' (None, None)); reflexivity.
  - intros [= <-]. reflexivity.
Qed.

(** The function returns only when there are parts to read. *)
Lemma processApiResponse_returns (response : GenerateContentResponse) (result : EditResult) :
  processApiResponse response = Fulfilled result ->
  exists ps, response_parts response = Some ps.
Proof.
  unfold processApiResponse, response_parts, read_parts.
  destruct (candidates response) as [[| candidate rest] |]; try (eexists; reflexivity).
  destruct (content candidate) as [c |]; [| discriminate].
  destruct (parts c) as [ps |]; [| discriminate]. eexists. reflexivity.
Qed.

(** C1, as amended: of the parts of the first candidate, the LAST one that
    carries binary payload gives the image result and the LAST one that
    carries text gives the text result; the parts before them are ignored.
    With no part of either kind the text is the fixed message, and with an
    image and no text it is null. *)
Theorem processApiResponse_last_part_wins (response : GenerateContentResponse)
    (ps : list Part) :
  response_parts response = Some ps ->
  exists result,
    processApiResponse response = Fulfilled result
    /\ result_image result
       = match last_part carries_image ps with
         | Some part => image_of part
         | None => None
         end
    /\ result_text result
       = match last_part carries_text ps with
         | Some part => part_text part
         | None =>
             match last_part carries_image ps with
             | Some _ => None
             | None => Some no_content_message
             end
         end.
Proof.
  intros Hparts. eexists. split; [exact (processApiResponse_parts response ps Hparts) |].
  rewrite scan_parts_last.
  destruct (last_part carries_image ps) as [pi |] eqn:Ei;
    destruct (last_part carries_text ps) as [pt |] eqn:Et;
    cbn [result_image result_text]; split; try reflexivity.
  - rewrite (image_of_truthy pi (last_part_carries _ _ _ Ei)). reflexivity.
  - rewrite (image_of_truthy pi (last_part_carries _ _ _ Ei)). reflexivity.
  - apply last_part_carries in Et. unfold carries_text in Et. rewrite Et.
    rewrite andb_false_r. reflexivity.
Qed.

(** C2, as amended: when the parts of the first candidate can be read, a
    response whose only part carries a non-empty text gives that text and no
    image; a response whose only part carries binary payload gives the data
    URL labelled image/png, whatever MIME type the part declares, and no
    text; a response none of whose parts carries either (a part with an empty
    text carries none), or one without candidates, gives no image and the
    fixed message. *)
Theorem processApiResponse_cases (response : GenerateContentResponse) :
  (forall part t,
      response_parts response = Some [part] ->
      part_inlineData part = None -> part_text part = Some t -> truthy t = true ->
      processApiResponse response
      = Fulfilled {| result_image := None; result_text := Some t |})
  /\ (forall part bytes declared,
      response_parts response = Some [part] ->
      part_inlineData part = Some {| data := Some bytes; mimeType := declared |} ->
      carries_text part = false ->
      processApiResponse response
      = Fulfilled {| result_image := Some ("data:image/png;base64," ++ bytes);
                     result_text := None |})
  /\ (forall ps,
      response_parts response = Some ps ->
      (forall part, In part ps -> carries_image part = false /\ carries_text part = false) ->
      processApiResponse response
      = Fulfilled {| result_image := None; result_text := Some no_content_message |}).
Proof.
  repeat split.
  - intros part t Hps Hi Ht Htruthy. rewrite (processApiResponse_parts _ _ Hps). simpl.
    rewrite Hi, Ht. simpl. rewrite Htruthy. simpl. rewrite Htruthy. reflexivity.
  - intros part bytes declared Hps Hi Ht. rewrite (processApiResponse_parts _ _ Hps). simpl.
    unfold carries_text in Ht. rewrite Hi, Ht. reflexivity.
  - intros ps Hps H. rewrite (processApiResponse_parts _ _ Hps), scan_parts_last.
    rewrite (last_part_none carries_image), (last_part_none carries_text);
      [reflexivity | |]; intros part Hin; apply (H part Hin).
Qed.

End Normalisation.

(** C1, as stated, fails: with two binary parts the image result is built
    from the second, not from the first; likewise for two text parts. *)
Lemma processApiResponse_first_part_loses :
  (response_parts two_binary_parts
   = Some [binary_part "AAAA" "image/jpeg"; binary_part "BBBB" "image/png"]
   /\ first_part carries_image
        [binary_part "AAAA" "image/jpeg"; binary_part "BBBB" "image/png"]
      = Some (binary_part "AAAA" "image/jpeg")
   /\ @processApiResponse two_images_env two_binary_parts
      = Fulfilled {| result_image := Some "data:image/png;base64,BBBB";
                     result_text := None |}
   /\ Some "data:image/png;base64,BBBB" <> image_of (binary_part "AAAA" "image/jpeg"))
  /\ (response_parts two_text_parts = Some [text_part "first"; text_part "second"]
      /\ first_part carries_text [text_part "first"; text_part "second"]
         = Some (text_part "first")
      /\ @processApiResponse two_images_env two_text_parts
         = Fulfilled {| result_image := None; result_text := Some "second" |}
      /\ Some "second" <> part_text (text_part "first")).
Proof.
  repeat split; try reflexivity; vm_compute; discriminate.
Qed.

(** C1, as amended, at the response with two binary parts. *)
Lemma processApiResponse_last_part_wins_witness :
  exists result,
    @processApiResponse two_images_env two_binary_parts = Fulfilled result
    /\ result_image result = Some "data:image/png;base64,BBBB"
    /\ result_text result = None.
Proof.
  exact (@processApiResponse_last_part_wins two_images_env two_binary_parts
           [binary_part "AAAA" "image/jpeg"; binary_part "BBBB" "image/png"] eq_refl).
Defined.

(** C2, as stated, fails: a response whose only part is a text part with an
    empty text gives the fixed message as text, not that text. *)
Lemma processApiResponse_empty_text_part :
  response_parts (response_of_parts [text_part EmptyString])
  = Some [text_part EmptyString]
  /\ @processApiResponse two_images_env (response_of_parts [text_part EmptyString])
     = Fulfilled {| result_image := None; result_text := Some no_content_message |}
  /\ @processApiResponse two_images_env (response_of_parts [text_part EmptyString])
     <> Fulfilled {| result_image := None; result_text := Some EmptyString |}.
Proof.
  repeat split; try reflexivity; vm_compute; discriminate.
Qed.

(** C2, as amended, at three sample responses: one text part, one binary
    part declared as JPEG, and no candidate at all. *)
Lemma processApiResponse_cases_witness :
  @processApiResponse two_images_env (response_of_parts [text_part "A cat."])
  = Fulfilled {| result_image := None; result_text := Some "A cat." |}
  /\ @processApiResponse two_images_env
       (response_of_parts [binary_part "AAAA" "image/jpeg"])
     = Fulfilled {| result_image := Some "data:image/png;base64,AAAA";
                    result_text := None |}
  /\ @processApiResponse two_images_env {| candidates := None; response_text := None |}
     = Fulfilled {| result_image := None; result_text := Some no_content_message |}.
Proof.
  split; [| split].
  - apply (proj1 (@processApiResponse_cases two_images_env _) (text_part "A cat.") "A cat.");
      reflexivity.
  - apply (proj1 (proj2 (@processApiResponse_cases two_images_env _))
             (binary_part "AAAA" "image/jpeg") "AAAA" "image/jpeg");
      reflexivity.
  - apply (proj2 (proj2 (@processApiResponse_cases two_images_env _)) []);
      [reflexivity | intros part []].
Defined.

(* ================================================================= *)
(** ** Async computations: the catch clause *)

Section Properties.

Context {env : Environment}.

Lemma try_catch_outcome {A : Type} (body : Async A) (label dflt : string) :
  outcome (try_catch body (log_and_rethrow label dflt))
  = match outcome body with
    | Fulfilled a => Fulfilled a
    | Rejected error => Rejected (new_Error (caught_message dflt error))
    end.
Proof. destruct body as [tr [a | error]]; reflexivity. Qed.

Lemma try_catch_trace {A : Type} (body : Async A) (label dflt : string) :
  trace (try_catch body (log_and_rethrow label dflt))
  = (trace body ++ match outcome body with
                   | Fulfilled _ => []
                   | Rejected error => [Console_error label error]
                   end)%list.
Proof.
  destruct body as [tr [a | error]]; cbn.
  - rewrite app_nil_r. reflexivity.
  - reflexivity.
Qed.

Lemma requests_app (tr1 tr2 : list Event) :
  requests (tr1 ++ tr2) = (requests tr1 ++ requests tr2)%list.
Proof. apply filter_app. Qed.

Lemma try_catch_requests {A : Type} (body : Async A) (label dflt : string) :
  requests (trace (try_catch body (log_and_rethrow label dflt))) = requests (trace body).
Proof.
  rewrite try_catch_trace, requests_app.
  destruct (outcome body); cbn; apply app_nil_r.
Qed.

Lemma in_try_catch_request {A : Type} (body : Async A) (label dflt : string) (ev : Event) :
  In ev (trace (try_catch body (log_and_rethrow label dflt))) ->
  is_request ev = true -> In ev (trace body).
Proof.
  rewrite try_catch_trace. intros Hin Hreq.
  apply in_app_or in Hin as [Hin | Hin]; [exact Hin |].
  destruct (outcome body); cbn in Hin; [contradiction |].
  destruct Hin as [<- | []]. discriminate.
Qed.

Lemma bind_resolve {A B : Type} (a : A) (k : A -> Async B) : bind (resolve a) k = k a.
Proof. unfold bind, resolve. destruct (k a); reflexivity. Qed.

Lemma Promise_all_resolved {A B : Type} (f : A -> B) (l : list A) :
  Promise_all (map (fun x => resolve (f x)) l) = resolve (map f l).
Proof.
  induction l as [| x l IH]; cbn [map Promise_all].
  - reflexivity.
  - rewrite bind_resolve, IH, bind_resolve. reflexivity.
Qed.

(** The part a file is encoded to. *)
Lemma fileToGenerativePart_resolves (file : FileOrBlob) (override : option string) :
  fileToGenerativePart file override
  = resolve (inline_part {| data := base64EncodedData file;
                            mimeType := finalMimeType file override |}).
Proof. reflexivity. Qed.

(** C9, as amended: with a non-empty override the part is labelled with the
    override; otherwise (no override, or an empty one) a File is labelled
    with its own type property, whatever it is, and a Blob that is not a File
    is labelled image/png, whatever its own type property. *)
Theorem fileToGenerativePart_label (file : FileOrBlob) (override : option string) :
  (forall m,
      override = Some m -> truthy m = true ->
      encoded_label (fileToGenerativePart file override) = Some m)
  /\ (truthy_opt override = false ->
      (forall f, file = AFile f ->
                 encoded_label (fileToGenerativePart file override) = Some (file_type f))
      /\ (forall b, file = ABlob b ->
                    encoded_label (fileToGenerativePart file override)
                    = Some "image/png")).
Proof.
  unfold encoded_label, fileToGenerativePart, finalMimeType. cbn. split.
  - intros m -> Hm. cbn. rewrite Hm. reflexivity.
  - intros ->. split; intros x ->; reflexivity.
Qed.

(* ================================================================= *)
(** ** generateImages *)

(** C5: a prompt made of white space only (the empty prompt included) makes
    generateImages fail, whatever the count and the aspect ratio, and no
    request is sent to the endpoint. *)
Theorem generateImages_blank_prompt (prompt : string) (count : float) (ratio : AspectRatio) :
  all_white_space prompt = true ->
  outcome (generateImages prompt count ratio)
  = Rejected (new_Error "Prompt cannot be empty.")
  /\ requests (trace (generateImages prompt count ratio)) = [].
Proof.
  intros Hblank. unfold generateImages.
  rewrite (blank_prompt_falsy prompt Hblank). split; reflexivity.
Qed.

(** C4: whatever the prompt, the count and the aspect ratio, when the
    endpoint answers the request of generateImages with n >= 1 images,
    generateImages returns n strings, the i-th being the PNG data-URL prefix
    followed by the bytes of the i-th image; when it answers with no image,
    or with no image list, generateImages fails with an Error. The request is
    sent for every prompt that passes the emptiness test. *)
Theorem generateImages_results (prompt : string) (count : float) (ratio : AspectRatio) :
  (forall params,
      In (Request_generateImages params) (trace (generateImages prompt count ratio)) ->
      (forall imgs,
          generateImages_reply params = Fulfilled {| generatedImages := Some imgs |} ->
          imgs <> [] ->
          exists urls,
            outcome (generateImages prompt count ratio) = Fulfilled urls
            /\ length urls = length imgs
            /\ urls = map image_data_url imgs)
      /\ (forall response,
          generateImages_reply params = Fulfilled response ->
          generatedImages response = None \/ generatedImages response = Some [] ->
          outcome (generateImages prompt count ratio)
          = Rejected (new_Error
              "The AI did not generate any images. This might be due to the safety policy.")))
  /\ (truthy (trim prompt) = true ->
      requests (trace (generateImages prompt count ratio))
      = [Request_generateImages (images_request prompt count ratio)]).
Proof.
  unfold generateImages. split.
  - intros params Hin. apply in_try_catch_request in Hin; [| reflexivity].
    rewrite try_catch_outcome.
    destruct (negb (truthy (trim prompt))); [contradiction |].
    unfold ai_models_generateImages, bind in *.
    assert (Hparams : params = images_request prompt count ratio).
    { destruct (generateImages_reply _) as [response | error].
      - destruct (generatedImages response) as [[| img imgs] |];
          cbn in Hin; destruct Hin as [[= <-] | []]; reflexivity.
      - cbn in Hin. destruct Hin as [[= <-] | []]. reflexivity. }
    subst params. unfold images_request. split.
    + intros imgs Hreply Hne. exists (map image_data_url imgs).
      rewrite Hreply. destruct imgs as [| img imgs]; [contradiction |].
      cbn [generatedImages outcome snd throw resolve].
      split; [reflexivity |]. split; [apply length_map | reflexivity].
    + intros response Hreply Hnone. rewrite Hreply.
      destruct Hnone as [-> | ->]; reflexivity.
  - intros Hprompt. rewrite try_catch_requests, Hprompt. cbn [negb].
    unfold ai_models_generateImages, bind, images_request.
    destruct (generateImages_reply _) as [response | error].
    + destruct (generatedImages response) as [[| img imgs] |]; reflexivity.
    + reflexivity.
Qed.

(* ================================================================= *)
(** ** Operations that send one request *)

Lemma bind_trace {A B : Type} (m : Async A) (k : A -> Async B) :
  trace (bind m k)
  = (trace m ++ match outcome m with
                | Fulfilled a => trace (k a)
                | Rejected _ => []
                end)%list.
Proof.
  destruct m as [tr [a | error]]; cbn.
  - destruct (k a); reflexivity.
  - rewrite app_nil_r. reflexivity.
Qed.

Lemma bind_outcome {A B : Type} (m : Async A) (k : A -> Async B) :
  outcome (bind m k)
  = match outcome m with
    | Fulfilled a => outcome (k a)
    | Rejected error => Rejected error
    end.
Proof. destruct m as [tr [a | error]]; cbn; [destruct (k a) |]; reflexivity. Qed.

Lemma silent_fails_as_its_call {A : Type} (body : Async A) :
  trace body = [] -> fails_as_its_call body.
Proof. intros Hsilent ev error Hin. rewrite Hsilent in Hin. contradiction. Qed.

Lemma generateContent_then {A : Type} (params : GenerateContentParameters)
    (k : GenerateContentResponse -> Async A) :
  (forall response, trace (k response) = []) ->
  trace (bind (ai_models_generateContent params) k) = [Request_generateContent params]
  /\ outcome (bind (ai_models_generateContent params) k)
     = match generateContent_reply params with
       | Fulfilled response => outcome (k response)
       | Rejected error => Rejected error
       end.
Proof.
  intros Hsilent. rewrite bind_trace, bind_outcome. cbn.
  destruct (generateContent_reply params) as [response | error]; [rewrite Hsilent |];
    split; reflexivity.
Qed.

Lemma generateImages_then {A : Type} (params : GenerateImagesParameters)
    (k : GenerateImagesResponse -> Async A) :
  (forall response, trace (k response) = []) ->
  trace (bind (ai_models_generateImages params) k) = [Request_generateImages params]
  /\ outcome (bind (ai_models_generateImages params) k)
     = match generateImages_reply params with
       | Fulfilled response => outcome (k response)
       | Rejected error => Rejected error
       end.
Proof.
  intros Hsilent. rewrite bind_trace, bind_outcome. cbn.
  destruct (generateImages_reply params) as [response | error]; [rewrite Hsilent |];
    split; reflexivity.
Qed.

Lemma generateContent_fails_as_its_call {A : Type} (params : GenerateContentParameters)
    (k : GenerateContentResponse -> Async A) :
  (forall response, trace (k response) = []) ->
  fails_as_its_call (bind (ai_models_generateContent params) k).
Proof.
  intros Hsilent ev error Hin Hfail.
  destruct (generateContent_then params k Hsilent) as [Htrace Houtcome].
  rewrite Htrace in Hin. destruct Hin as [<- | []]. rewrite Houtcome.
  cbn in Hfail. destruct (generateContent_reply params); congruence.
Qed.

Lemma generateImages_fails_as_its_call {A : Type} (params : GenerateImagesParameters)
    (k : GenerateImagesResponse -> Async A) :
  (forall response, trace (k response) = []) ->
  fails_as_its_call (bind (ai_models_generateImages params) k).
Proof.
  intros Hsilent ev error Hin Hfail.
  destruct (generateImages_then params k Hsilent) as [Htrace Houtcome].
  rewrite Htrace in Hin. destruct Hin as [<- | []]. rewrite Houtcome.
  cbn in Hfail. destruct (generateImages_reply params); congruence.
Qed.

Lemma call_failure_is_request (ev : Event) (error : Thrown) :
  call_failure ev = Some error -> is_request ev = true.
Proof. destruct ev; cbn; [reflexivity | reflexivity | discriminate]. Qed.

(** The catch clause turns the failure of the call into a new Error. *)
Lemma failed_call_rethrown {A : Type} (body : Async A) (label dflt : string) :
  fails_as_its_call body ->
  forall ev error,
    In ev (trace (try_catch body (log_and_rethrow label dflt))) ->
    call_failure ev = Some error ->
    outcome (try_catch body (log_and_rethrow label dflt))
    = Rejected (new_Error (caught_message dflt error)).
Proof.
  intros Hbody ev error Hin Hfail.
  apply in_try_catch_request in Hin; [| exact (call_failure_is_request ev error Hfail)].
  rewrite try_catch_outcome, (Hbody ev error Hin Hfail). reflexivity.
Qed.

Lemma tagged_trace {A : Type} (tag : A -> OperationResult) (m : Async A) :
  trace (tagged tag m) = trace m.
Proof. destruct m as [tr [a | error]]; reflexivity. Qed.

Lemma tagged_rejected {A : Type} (tag : A -> OperationResult) (m : Async A) (error : Thrown) :
  outcome m = Rejected error -> outcome (tagged tag m) = Rejected error.
Proof. destruct m as [tr [a | e]]; cbn; congruence. Qed.

(** What follows the reply in each operation writes nothing to the trace. *)
Lemma get_ideas_silent (result : JsValue) : trace (get_ideas result) = [].
Proof. destruct result; reflexivity. Qed.

Lemma parse_ideas_silent {A : Type} (text : string) (k : JsValue -> Async A) :
  (forall ideas, trace (k ideas) = []) ->
  trace (let* result := settle (JSON_parse text) in
         let* ideas := get_ideas result in
         k ideas) = [].
Proof.
  intros Hsilent. rewrite bind_trace. cbn.
  destruct (JSON_parse text) as [result | error]; [| reflexivity].
  rewrite bind_trace, get_ideas_silent. cbn.
  destruct (outcome (get_ideas result)); [apply Hsilent | reflexivity].
Qed.

Lemma reference_parts_resolved (files : list File) :
  Promise_all (map (fun file => fileToGenerativePart (AFile file) None) files)
  = resolve (map (fun file =>
                    inline_part {| data := base64EncodedData (AFile file);
                                   mimeType := file_type file |}) files).
Proof.
  exact (Promise_all_resolved
           (fun file => inline_part {| data := base64EncodedData (AFile file);
                                       mimeType := file_type file |}) files).
Qed.

(* ================================================================= *)
(** ** Failures of the underlying call *)

Lemma editImage_body (imageFile : File) (prompt : string) (ev : Event) (error : Thrown) :
  In ev (trace (editImage imageFile prompt)) -> call_failure ev = Some error ->
  outcome (editImage imageFile prompt)
  = Rejected (new_Error (caught_message
      "An unexpected error occurred while communicating with the AI." error)).
Proof.
  unfold editImage. apply failed_call_rethrown.
  rewrite fileToGenerativePart_resolves, bind_resolve.
  apply generateContent_fails_as_its_call. reflexivity.
Qed.

Lemma editImageWithMask_body (imageFile : File) (maskBlob : Blob) (prompt : string)
    (ev : Event) (error : Thrown) :
  In ev (trace (editImageWithMask imageFile maskBlob prompt)) ->
  call_failure ev = Some error ->
  outcome (editImageWithMask imageFile maskBlob prompt)
  = Rejected (new_Error (caught_message
      "An unexpected error occurred while communicating with the AI." error)).
Proof.
  unfold editImageWithMask. apply failed_call_rethrown.
  rewrite !fileToGenerativePart_resolves, !bind_resolve.
  apply generateContent_fails_as_its_call. reflexivity.
Qed.

Lemma getCreativeIdeas_body (imageFile : File) (ev : Event) (error : Thrown) :
  In ev (trace (getCreativeIdeas imageFile)) -> call_failure ev = Some error ->
  outcome (getCreativeIdeas imageFile)
  = Rejected (new_Error (caught_message
      "An unexpected error occurred while generating ideas." error)).
Proof.
  unfold getCreativeIdeas. apply failed_call_rethrown.
  rewrite fileToGenerativePart_resolves, bind_resolve.
  apply generateContent_fails_as_its_call. intros response.
  destruct (truthy_opt (response_text response)); [| reflexivity].
  apply parse_ideas_silent. reflexivity.
Qed.

Lemma generateImages_body (prompt : string) (count : float) (ratio : AspectRatio)
    (ev : Event) (error : Thrown) :
  In ev (trace (generateImages prompt count ratio)) -> call_failure ev = Some error ->
  outcome (generateImages prompt count ratio)
  = Rejected (new_Error (caught_message
      "An unexpected error occurred while generating images." error)).
Proof.
  unfold generateImages. apply failed_call_rethrown.
  destruct (negb (truthy (trim prompt))).
  - apply silent_fails_as_its_call. reflexivity.
  - apply generateImages_fails_as_its_call. intros response.
    destruct (generatedImages response) as [[| img imgs] |]; reflexivity.
Qed.

Lemma generateImageWithReference_silent_tail (response : GenerateContentResponse) :
  trace (let* result := settle (processApiResponse response) in
         if truthy_opt (result_image result)
         then resolve [template_value (result_image result)]
         else throw (new_Error
                (if truthy_opt (result_text result)
                 then template_value (result_text result)
                 else "The AI could not generate an image from your request."))) = [].
Proof.
  rewrite bind_trace. cbn [settle trace outcome fst snd app].
  destruct (processApiResponse response) as [result | error]; [| reflexivity].
  destruct (truthy_opt (result_image result)); reflexivity.
Qed.

Lemma generateImageWithReference_body (files : list File) (prompt ratio : string)
    (ev : Event) (error : Thrown) :
  In ev (trace (generateImageWithReference files prompt ratio)) ->
  call_failure ev = Some error ->
  outcome (generateImageWithReference files prompt ratio)
  = Rejected (new_Error (caught_message
      "An unexpected error occurred while generating the image." error)).
Proof.
  unfold generateImageWithReference. apply failed_call_rethrown.
  destruct (length files =? 0)%nat; [apply silent_fails_as_its_call; reflexivity |].
  destruct (negb (truthy (trim prompt))); [apply silent_fails_as_its_call; reflexivity |].
  cbv zeta. rewrite reference_parts_resolved, bind_resolve.
  apply generateContent_fails_as_its_call. intros response.
  apply generateImageWithReference_silent_tail.
Qed.

Lemma generatePromptIdeas_silent_tail (response : GenerateContentResponse) :
  trace (let jsonString := response_text response in
         let* returned :=
           (if truthy_opt jsonString then
              let* result := settle (JSON_parse (template_value jsonString)) in
              let* ideas := get_ideas result in
              resolve (nonempty_array ideas)
            else resolve None) in
         match returned with
         | Some ideas => resolve ideas
         | None => throw (new_Error invalid_ideas_message)
         end) = [].
Proof.
  cbv zeta. rewrite bind_trace.
  assert (Hfirst : forall (m : Async (option (list JsValue))), trace m = [] ->
            (trace m ++ match outcome m with
                        | Fulfilled a =>
                            trace (match a with
                                   | Some ideas => resolve ideas
                                   | None => throw (new_Error invalid_ideas_message)
                                   end)
                        | Rejected _ => []
                        end)%list = []).
  { intros m ->. destruct (outcome m) as [[ideas |] | e]; reflexivity. }
  apply Hfirst.
  destruct (truthy_opt (response_text response)); [| reflexivity].
  apply parse_ideas_silent. reflexivity.
Qed.

Lemma generatePromptIdeas_body (formData : PromptForm) (referenceImages : list File)
    (ev : Event) (error : Thrown) :
  In ev (trace (generatePromptIdeas formData referenceImages)) ->
  call_failure ev = Some error ->
  outcome (generatePromptIdeas formData referenceImages)
  = Rejected (new_Error (caught_message
      "An unexpected error occurred while generating ideas." error)).
Proof.
  unfold generatePromptIdeas. apply failed_call_rethrown. cbv zeta.
  destruct (_ && _); [apply silent_fails_as_its_call; reflexivity |].
  rewrite reference_parts_resolved, bind_resolve.
  apply generateContent_fails_as_its_call. intros response.
  apply generatePromptIdeas_silent_tail.
Qed.

Lemma rejected_with_plain_Error {A : Type} (body : Async A) (label dflt : string)
    (reason : Thrown) :
  outcome (try_catch body (log_and_rethrow label dflt)) = Rejected reason ->
  exists message, reason = ErrorObject "Error" message.
Proof.
  rewrite try_catch_outcome. destruct (outcome body) as [a | error]; [discriminate |].
  intros [= <-]. eexists. reflexivity.
Qed.

Lemma tagged_rejected_inv {A : Type} (tag : A -> OperationResult) (m : Async A)
    (reason : Thrown) :
  outcome (tagged tag m) = Rejected reason -> outcome m = Rejected reason.
Proof. destruct m as [tr [a | e]]; cbn; congruence. Qed.

(** C7, as amended: in every operation, when the call to the endpoint
    fails, the operation fails with a new plain Error. Its message is the
    message of the failure when the failure is an instance of Error (of
    whatever class, and also when that message is empty), and the default
    message of the operation when the failure is no instance of Error (also
    when it is an object that carries a message). The class of the failure
    is not kept: whatever an operation is rejected with is an Error of the
    class Error. *)
Theorem operation_failure_rethrown (op : Operation) :
  (forall ev error,
      In ev (trace (run op)) ->
      call_failure ev = Some error ->
      outcome (run op)
      = Rejected (ErrorObject "Error"
                    (match error with
                     | ErrorObject _ message => message
                     | ThrownValue _ => default_message op
                     end)))
  /\ (forall reason,
      outcome (run op) = Rejected reason ->
      exists message, reason = ErrorObject "Error" message).
Proof.
  split.
  - intros ev error Hin Hfail.
    change (outcome (run op)
            = Rejected (new_Error (caught_message (default_message op) error))).
    destruct op; cbn [run default_message] in *; rewrite tagged_trace in Hin;
      apply tagged_rejected.
    + exact (editImage_body _ _ ev error Hin Hfail).
    + exact (editImageWithMask_body _ _ _ ev error Hin Hfail).
    + exact (getCreativeIdeas_body _ ev error Hin Hfail).
    + exact (generateImages_body _ _ _ ev error Hin Hfail).
    + exact (generateImageWithReference_body _ _ _ ev error Hin Hfail).
    + exact (generatePromptIdeas_body _ _ ev error Hin Hfail).
  - intros reason Hrejected.
    destruct op; cbn [run] in Hrejected; apply tagged_rejected_inv in Hrejected;
      exact (rejected_with_plain_Error _ _ _ _ Hrejected).
Qed.

(* ================================================================= *)
(** ** createBlankCanvas *)

Lemma split_without_separator (sep : ascii) (s : string) :
  occurs sep s = false -> split sep s = [s].
Proof.
  induction s as [| c s IH]; cbn; intros H.
  - reflexivity.
  - apply orb_false_iff in H as [Hc Hs]. rewrite Hc, (IH Hs). reflexivity.
Qed.

Lemma split_at_separator (sep : ascii) (a b : string) :
  occurs sep a = false -> split sep (a ++ String sep b) = a :: split sep b.
Proof.
  induction a as [| c a IH]; cbn; intros H.
  - rewrite Ascii.eqb_refl. reflexivity.
  - apply orb_false_iff in H as [Hc Ha]. rewrite Hc, (IH Ha). reflexivity.
Qed.

(** X6: for a ratio [w:h], the canvas is given the width [Number(w) * 100]
    and the height [Number(h) * 100], and the result is what follows the
    first comma of its data URL. *)
Lemma createBlankCanvas_dimensions (w h : string) :
  occurs ":"%char w = false -> occurs ":"%char h = false ->
  createBlankCanvas (w ++ String ":"%char h)
  = nth_error
      (split ","%char
         (canvas_toDataURL (PrimFloat.mul (Number w) 100%float)
                           (PrimFloat.mul (Number h) 100%float))) 1.
Proof.
  intros Hw Hh. unfold createBlankCanvas.
  rewrite (split_at_separator _ w h Hw), (split_without_separator _ h Hh).
  reflexivity.
Qed.

(* ================================================================= *)
(** ** generateImageWithReference *)

Lemma reference_parts_encoded (files : list File) :
  Forall2 (fun file part => fileToGenerativePart (AFile file) None = resolve part)
    files
    (map (fun file => inline_part {| data := base64EncodedData (AFile file);
                                     mimeType := file_type file |}) files).
Proof. induction files as [| file files IH]; constructor; [reflexivity | exact IH]. Qed.

Lemma reference_parts_no_text (files : list File) :
  Forall (fun part => part_text part = None)
    (map (fun file => inline_part {| data := base64EncodedData (AFile file);
                                     mimeType := file_type file |}) files).
Proof. apply Forall_map, Forall_forall. reflexivity. Qed.

(** C3: every part sequence generateImageWithReference submits starts with
    the seed canvas part (the inline data createBlankCanvas gives for the
    ratio, labelled image/png), goes on with the encoded reference images in
    the order of the file list, and ends with the instruction text built
    around the prompt, the only text part; and it submits one such sequence
    for every non-empty file list and every prompt that passes the emptiness
    test. *)
Theorem generateImageWithReference_parts (files : list File) (prompt ratio : string) :
  (forall params,
      In (Request_generateContent params)
         (trace (generateImageWithReference files prompt ratio)) ->
      exists imageParts,
        content_parts params
        = ({| part_inlineData :=
                Some {| data := createBlankCanvas ratio; mimeType := "image/png" |};
              part_text := None |}
           :: imageParts
           ++ [ {| part_inlineData := None;
                   part_text :=
                     Some ("Please fill the provided blank transparent canvas with a new image. Use the other reference images as strong inspiration for the style, mood, and subject matter. Follow this specific instruction for the content: "
                           ++ dquote ++ prompt ++ dquote
                           ++ ". The final output must be a single, complete image that perfectly fits the dimensions of the initial blank canvas.")%string |} ])%list
        /\ Forall2 (fun file part => fileToGenerativePart (AFile file) None = resolve part)
             files imageParts
        /\ Forall (fun part => part_text part = None) imageParts)
  /\ (files <> [] -> truthy (trim prompt) = true ->
      exists params,
        requests (trace (generateImageWithReference files prompt ratio))
        = [Request_generateContent params]).
Proof.
  unfold generateImageWithReference. split.
  - intros params Hin. apply in_try_catch_request in Hin; [| reflexivity].
    destruct (length files =? 0)%nat; [contradiction |].
    destruct (negb (truthy (trim prompt))); [contradiction |].
    cbv zeta in Hin. rewrite reference_parts_resolved, bind_resolve in Hin.
    match type of Hin with
    | In _ (trace (bind (ai_models_generateContent ?p) ?k)) =>
        destruct (generateContent_then p k generateImageWithReference_silent_tail)
          as [Htrace _]
    end.
    rewrite Htrace in Hin. destruct Hin as [Heq | []]. injection Heq as <-.
    eexists. split; [reflexivity |]. split.
    + apply reference_parts_encoded.
    + apply reference_parts_no_text.
  - intros Hfiles Hprompt. rewrite try_catch_requests.
    destruct files as [| file files]; [contradiction |].
    cbn [length Nat.eqb]. rewrite Hprompt. cbn [negb]. cbv zeta.
    rewrite reference_parts_resolved, bind_resolve.
    match goal with
    | |- context [bind (ai_models_generateContent ?p) ?k] =>
        destruct (generateContent_then p k generateImageWithReference_silent_tail)
          as [Htrace _]
    end.
    rewrite Htrace. eexists. reflexivity.
Qed.

(* ================================================================= *)
(** ** generatePromptIdeas *)

Lemma truthy_js_or (a b c : string) :
  truthy (js_or (js_or a b) c) = truthy a || truthy b || truthy c.
Proof. destruct a, b, c; reflexivity. Qed.

Lemma form_is_empty_hasTextData (formData : PromptForm) :
  form_is_empty formData
  = negb (truthy (js_or (js_or (productName formData) (productPosition formData))
                        (additionalInfo formData))).
Proof. rewrite truthy_js_or, !negb_orb. reflexivity. Qed.

(** C8: with the three form fields empty and at least one reference image,
    the instruction text sent is the image-only text; with a form field that
    is not empty, it is the form-driven text, which carries the three fields
    and differs from the image-only text, for any number of reference
    images, none included. *)
Theorem generatePromptIdeas_template (formData : PromptForm) (referenceImages : list File) :
  exists image_only form_driven : string,
    image_only = "
        You are an expert prompt writer for an AI image generator.
        Analyze the following image(s) closely. Based *only* on the visual information (style, subject, composition, lighting, colors), generate 4 distinct, creative, and detailed prompt ideas in English.
        The prompts should describe how to create a similar or inspired image.
        Return the ideas as a JSON object with a single key " ++ dquote ++ "ideas" ++ dquote ++ " which is an array of 4 strings.
      "
    /\ form_driven = "
        You are an expert prompt writer for an AI image generator, specializing in stunning product photography for small businesses (UMKM).
        Based on the following information, generate 4 distinct, creative, and detailed prompt ideas.
        The prompts should be in English.

        Product Name: " ++ dquote ++ productName formData ++ dquote ++ "
        Product Position/Action: " ++ dquote ++ productPosition formData ++ dquote ++ "
        Additional Details (style, background, mood, colors): " ++ dquote ++ additionalInfo formData ++ dquote ++ "

        Return the ideas as a JSON object with a single key " ++ dquote ++ "ideas" ++ dquote ++ " which is an array of 4 strings.
      "
    /\ image_only <> form_driven
    /\ (form_is_empty formData = true -> referenceImages <> [] ->
        map instruction_text
            (requests (trace (generatePromptIdeas formData referenceImages)))
        = [Some image_only])
    /\ (form_is_empty formData = false ->
        map instruction_text
            (requests (trace (generatePromptIdeas formData referenceImages)))
        = [Some form_driven]).
Proof.
  eexists. eexists. split; [reflexivity |]. split; [reflexivity |]. split.
  { intros Hsame. apply (f_equal (String.get 66)) in Hsame. cbn in Hsame. discriminate. }
  rewrite form_is_empty_hasTextData. unfold generatePromptIdeas.
  rewrite try_catch_requests. cbv zeta.
  destruct (truthy (js_or _ _)); cbn [negb andb]; split; try discriminate.
  - intros _. rewrite andb_false_r.
    rewrite reference_parts_resolved, bind_resolve.
    match goal with
    | |- context [bind (ai_models_generateContent ?p) ?k] =>
        destruct (generateContent_then p k generatePromptIdeas_silent_tail)
          as [Htrace _]
    end.
    rewrite Htrace. reflexivity.
  - intros _ Himages. destruct referenceImages as [| file files]; [contradiction |].
    cbn [length Nat.eqb Nat.ltb Nat.leb andb].
    rewrite reference_parts_resolved, bind_resolve.
    match goal with
    | |- context [bind (ai_models_generateContent ?p) ?k] =>
        destruct (generateContent_then p k generatePromptIdeas_silent_tail)
          as [Htrace _]
    end.
    rewrite Htrace. reflexivity.
Qed.

Lemma nonempty_array_some (ideas : JsValue) (elements : list JsValue) :
  nonempty_array ideas = Some elements -> ideas = JsArray elements /\ elements <> [].
Proof.
  unfold nonempty_array. destruct ideas; cbn; try discriminate.
  - destruct b; discriminate.
  - destruct (negb _); discriminate.
  - destruct (truthy s); discriminate.
  - destruct elements0 as [| x xs]; cbn; [discriminate |].
    intros [= <-]. split; [reflexivity | discriminate].
Qed.

Lemma nonempty_array_none (ideas : JsValue) :
  ideas = JsUndefined \/ (forall elements, ideas <> JsArray elements) \/ ideas = JsArray [] ->
  nonempty_array ideas = None.
Proof.
  intros [-> | [Hnot | ->]]; [reflexivity | | reflexivity].
  destruct (nonempty_array ideas) as [elements |] eqn:E; [| reflexivity].
  apply nonempty_array_some in E as [-> _]. exfalso. exact (Hnot elements eq_refl).
Qed.

(** How the part of generatePromptIdeas after the reply settles. *)
Lemma generatePromptIdeas_tail_outcome (response : GenerateContentResponse) :
  outcome (let jsonString := response_text response in
           let* returned :=
             (if truthy_opt jsonString then
                let* result := settle (JSON_parse (template_value jsonString)) in
                let* ideas := get_ideas result in
                resolve (nonempty_array ideas)
              else resolve None) in
           match returned with
           | Some ideas => resolve ideas
           | None => throw (new_Error invalid_ideas_message)
           end)
  = if truthy_opt (response_text response) then
      match JSON_parse (template_value (response_text response)) with
      | Rejected error => Rejected error
      | Fulfilled result =>
          match outcome (get_ideas result) with
          | Rejected error => Rejected error
          | Fulfilled ideas =>
              match nonempty_array ideas with
              | Some elements => Fulfilled elements
              | None => Rejected (new_Error invalid_ideas_message)
              end
          end
      end
    else Rejected (new_Error invalid_ideas_message).
Proof.
  cbv zeta. rewrite bind_outcome.
  destruct (truthy_opt (response_text response)); [| reflexivity].
  rewrite bind_outcome. cbn [settle outcome snd].
  destruct (JSON_parse _) as [result | error]; [| reflexivity].
  rewrite bind_outcome.
  destruct (outcome (get_ideas result)) as [ideas | error]; [| reflexivity].
  cbn. destruct (nonempty_array ideas); reflexivity.
Qed.

(** The outcome of generatePromptIdeas once its request is in the trace. *)
Lemma generatePromptIdeas_sent (formData : PromptForm) (referenceImages : list File)
    (params : GenerateContentParameters) :
  In (Request_generateContent params)
     (trace (generatePromptIdeas formData referenceImages)) ->
  outcome (generatePromptIdeas formData referenceImages)
  = match generateContent_reply params with
    | Rejected error =>
        Rejected (new_Error (caught_message
          "An unexpected error occurred while generating ideas." error))
    | Fulfilled response =>
        if truthy_opt (response_text response) then
          match JSON_parse (template_value (response_text response)) with
          | Rejected error =>
              Rejected (new_Error (caught_message
                "An unexpected error occurred while generating ideas." error))
          | Fulfilled result =>
              match outcome (get_ideas result) with
              | Rejected error =>
                  Rejected (new_Error (caught_message
                    "An unexpected error occurred while generating ideas." error))
              | Fulfilled ideas =>
                  match nonempty_array ideas with
                  | Some elements => Fulfilled elements
                  | None => Rejected (new_Error invalid_ideas_message)
                  end
              end
          end
        else Rejected (new_Error invalid_ideas_message)
    end.
Proof.
  unfold generatePromptIdeas. intros Hin.
  apply in_try_catch_request in Hin; [| reflexivity].
  rewrite try_catch_outcome. cbv zeta in *.
  destruct (_ && _); [contradiction |].
  rewrite reference_parts_resolved, bind_resolve in *.
  match type of Hin with
  | In _ (trace (bind (ai_models_generateContent ?p) ?k)) =>
      destruct (generateContent_then p k generatePromptIdeas_silent_tail)
        as [Htrace Houtcome]
  end.
  rewrite Htrace in Hin. destruct Hin as [Heq | []]. injection Heq as <-.
  rewrite Houtcome.
  destruct (generateContent_reply _) as [response | error]; [| reflexivity].
  rewrite generatePromptIdeas_tail_outcome.
  destruct (truthy_opt (response_text response)); [| reflexivity].
  destruct (JSON_parse _) as [result | error]; [| reflexivity].
  destruct (outcome (get_ideas result)) as [ideas | error]; [| reflexivity].
  destruct (nonempty_array ideas); reflexivity.
Qed.

Lemma generatePromptIdeas_fulfilled (formData : PromptForm) (referenceImages : list File)
    (ideas : list JsValue) :
  outcome (generatePromptIdeas formData referenceImages) = Fulfilled ideas ->
  exists params, In (Request_generateContent params)
                    (trace (generatePromptIdeas formData referenceImages)).
Proof.
  unfold generatePromptIdeas. rewrite try_catch_outcome, try_catch_trace. cbv zeta.
  destruct (_ && _); [discriminate |].
  rewrite reference_parts_resolved, bind_resolve.
  match goal with
  | |- context [bind (ai_models_generateContent ?p) ?k] =>
      destruct (generateContent_then p k generatePromptIdeas_silent_tail)
        as [Htrace _]
  end.
  rewrite Htrace. intros _. eexists. left. reflexivity.
Qed.

(** C10: generatePromptIdeas never returns an empty list. Whenever it
    returns, the array has at least one element. When the reply to its
    request has no text, or a text JSON.parse rejects, or a parsed object
    whose ideas field is missing, is no array or is an empty array, it fails
    with an Error; and it returns the array when that is a non-empty one. *)
Theorem generatePromptIdeas_never_empty (formData : PromptForm) (referenceImages : list File) :
  (forall ideas,
      outcome (generatePromptIdeas formData referenceImages) = Fulfilled ideas ->
      (1 <= length ideas)%nat)
  /\ (forall params response,
      In (Request_generateContent params)
         (trace (generatePromptIdeas formData referenceImages)) ->
      generateContent_reply params = Fulfilled response ->
      (truthy_opt (response_text response) = false ->
       outcome (generatePromptIdeas formData referenceImages)
       = Rejected (new_Error invalid_ideas_message))
      /\ (forall text,
          response_text response = Some text -> truthy text = true ->
          (forall error,
              JSON_parse text = Rejected error ->
              exists message,
                outcome (generatePromptIdeas formData referenceImages)
                = Rejected (new_Error message))
          /\ (forall properties,
              JSON_parse text = Fulfilled (JsObject properties) ->
              (own_property "ideas" properties = JsUndefined
               \/ (forall elements, own_property "ideas" properties <> JsArray elements)
               \/ own_property "ideas" properties = JsArray []) ->
              outcome (generatePromptIdeas formData referenceImages)
              = Rejected (new_Error invalid_ideas_message))
          /\ (forall properties idea ideas,
              JSON_parse text = Fulfilled (JsObject properties) ->
              own_property "ideas" properties = JsArray (idea :: ideas) ->
              outcome (generatePromptIdeas formData referenceImages)
              = Fulfilled (idea :: ideas)))).
Proof.
  split.
  - intros ideas Hreturned.
    destruct (generatePromptIdeas_fulfilled _ _ _ Hreturned) as [params Hin].
    rewrite (generatePromptIdeas_sent _ _ _ Hin) in Hreturned.
    destruct (generateContent_reply params) as [response | error]; [| discriminate].
    destruct (truthy_opt (response_text response)); [| discriminate].
    destruct (JSON_parse _) as [result | error]; [| discriminate].
    destruct (outcome (get_ideas result)) as [v | error]; [| discriminate].
    destruct (nonempty_array v) as [elements |] eqn:E; [| discriminate].
    injection Hreturned as <-. apply nonempty_array_some in E as [_ Hne].
    destruct elements; [contradiction | cbn; lia].
  - intros params response Hin Hreply.
    rewrite (generatePromptIdeas_sent _ _ _ Hin), Hreply. split.
    + intros ->. reflexivity.
    + intros text Htext Htruthy. rewrite Htext. cbn [truthy_opt template_value].
      rewrite Htruthy. repeat split.
      * intros error ->. eexists. reflexivity.
      * intros properties -> Hideas. cbn [get_ideas resolve outcome snd].
        rewrite (nonempty_array_none _ Hideas). reflexivity.
      * intros properties idea ideas -> Hideas. cbn [get_ideas resolve outcome snd].
        rewrite Hideas. reflexivity.
Qed.

End Properties.

(* ================================================================= *)
(** ** The properties at sample inputs *)

(** C9, as stated, fails: a Blob that carries the type image/jpeg is
    labelled image/png, and a File that carries no type is labelled with the
    empty string, where the contract gives image/jpeg and image/png. *)
Lemma fileToGenerativePart_label_not_by_contract :
  (encoded_label (@fileToGenerativePart two_images_env (ABlob jpeg_blob) None)
   = Some "image/png"
   /\ label_by_contract (ABlob jpeg_blob) None = "image/jpeg"
   /\ encoded_label (@fileToGenerativePart two_images_env (ABlob jpeg_blob) None)
      <> Some (label_by_contract (ABlob jpeg_blob) None))
  /\ (encoded_label (@fileToGenerativePart two_images_env (AFile untyped_file) None)
      = Some EmptyString
      /\ label_by_contract (AFile untyped_file) None = "image/png"
      /\ encoded_label (@fileToGenerativePart two_images_env (AFile untyped_file) None)
         <> Some (label_by_contract (AFile untyped_file) None)).
Proof. repeat split; try reflexivity; vm_compute; discriminate. Qed.

(** C9, as amended, at a JPEG file with an override, at a File with no
    type and at a JPEG Blob. *)
Lemma fileToGenerativePart_label_witness :
  encoded_label (@fileToGenerativePart two_images_env (AFile photo_jpeg) (Some "image/webp"))
  = Some "image/webp"
  /\ encoded_label (@fileToGenerativePart two_images_env (AFile untyped_file) None)
     = Some (file_type untyped_file)
  /\ encoded_label (@fileToGenerativePart two_images_env (ABlob jpeg_blob) None)
     = Some "image/png".
Proof.
  split; [| split].
  - apply (proj1 (@fileToGenerativePart_label two_images_env (AFile photo_jpeg)
                    (Some "image/webp")) "image/webp"); reflexivity.
  - apply (proj1 (proj2 (@fileToGenerativePart_label two_images_env (AFile untyped_file)
                           None) eq_refl) untyped_file); reflexivity.
  - apply (proj2 (proj2 (@fileToGenerativePart_label two_images_env (ABlob jpeg_blob)
                           None) eq_refl) jpeg_blob); reflexivity.
Defined.

(** C5 at a prompt of three spaces, with an endpoint that would return two
    images. *)
Lemma generateImages_blank_prompt_witness :
  all_white_space "   " = true
  /\ outcome (@generateImages two_images_env "   " 2%float Ratio_1_1)
     = Rejected (new_Error "Prompt cannot be empty.")
  /\ requests (trace (@generateImages two_images_env "   " 2%float Ratio_1_1)) = [].
Proof.
  split; [reflexivity |].
  exact (@generateImages_blank_prompt two_images_env "   " 2%float Ratio_1_1 eq_refl).
Defined.

(** C4 at the prompt of the specification: two images come back as two
    data URLs, in order. *)
Lemma generateImages_results_witness :
  exists urls,
    outcome (@generateImages two_images_env "a red apple" 2%float Ratio_1_1)
    = Fulfilled urls
    /\ length urls = 2
    /\ urls = ["data:image/png;base64,iVBOR1"; "data:image/png;base64,iVBOR2"].
Proof.
  apply (proj1 (proj1 (@generateImages_results two_images_env "a red apple" 2%float
                         Ratio_1_1)
                  (images_request "a red apple" 2%float Ratio_1_1)
                  (or_introl eq_refl))
           [ {| image := {| imageBytes := "iVBOR1" |} |};
             {| image := {| imageBytes := "iVBOR2" |} |} ]);
    [reflexivity | discriminate].
Defined.

(** C7, as stated, fails: an Error without message is re-raised with the
    empty message, not with the default one, and a thrown object that
    carries a message is re-raised with the default message, not with its
    own. *)
Lemma operation_failure_message_not_by_contract :
  (failure_message empty_error = None
   /\ outcome (@run empty_error_env (EditImage photo_jpeg "make the sky blue"))
      = Rejected (ErrorObject "Error" EmptyString)
   /\ outcome (@run empty_error_env (EditImage photo_jpeg "make the sky blue"))
      <> Rejected (ErrorObject "Error"
                     (message_by_contract
                        (default_message (EditImage photo_jpeg "make the sky blue"))
                        empty_error)))
  /\ (failure_message message_object = Some "Quota exceeded."
      /\ outcome (@run message_object_env (EditImage photo_jpeg "make the sky blue"))
         = Rejected (ErrorObject "Error"
                       "An unexpected error occurred while communicating with the AI.")
      /\ outcome (@run message_object_env (EditImage photo_jpeg "make the sky blue"))
         <> Rejected (ErrorObject "Error"
                        (message_by_contract
                           (default_message (EditImage photo_jpeg "make the sky blue"))
                           message_object))).
Proof.
  repeat split; try reflexivity; vm_compute; discriminate.
Qed.

(** C7 at editImage: an ApiError of the endpoint comes out as a plain Error
    with the same message, a thrown string as a plain Error with the default
    message. *)
Lemma operation_failure_rethrown_witness :
  outcome (@run failing_env (EditImage photo_jpeg "make the sky blue"))
  = Rejected (ErrorObject "Error" "Quota exceeded.")
  /\ outcome (@run throwing_env (EditImage photo_jpeg "make the sky blue"))
     = Rejected (ErrorObject "Error"
                   "An unexpected error occurred while communicating with the AI.").
Proof.
  split.
  - eapply (proj1 (@operation_failure_rethrown failing_env
                     (EditImage photo_jpeg "make the sky blue")) _ quota_error);
      [cbv; left; reflexivity | reflexivity].
  - eapply (proj1 (@operation_failure_rethrown throwing_env
                     (EditImage photo_jpeg "make the sky blue")) _ thrown_string);
      [cbv; left; reflexivity | reflexivity].
Defined.

(** C3 at two reference images: one request is submitted. *)
Lemma generateImageWithReference_parts_witness :
  exists params,
    requests (trace (@generateImageWithReference failing_env
                       [photo_jpeg; untyped_file] "a cat on a sofa" "16:9"))
    = [Request_generateContent params].
Proof.
  apply (proj2 (@generateImageWithReference_parts failing_env
                  [photo_jpeg; untyped_file] "a cat on a sofa" "16:9"));
    [discriminate | reflexivity].
Defined.

(** C8 at an empty form with one image, and at a form with a product name
    and no image. *)
Lemma generatePromptIdeas_template_witness :
  map instruction_text
      (requests (trace (@generatePromptIdeas failing_env empty_form [photo_jpeg])))
  = [Some image_only_template]
  /\ map instruction_text
         (requests (trace (@generatePromptIdeas failing_env coffee_form [])))
     = [Some (form_template "Kopi Gayo" EmptyString EmptyString)].
Proof.
  split.
  - destruct (@generatePromptIdeas_template failing_env empty_form [photo_jpeg])
      as [image_only [form_driven [-> [_ [_ [Hempty _]]]]]].
    apply Hempty; [reflexivity | discriminate].
  - destruct (@generatePromptIdeas_template failing_env coffee_form [])
      as [image_only [form_driven [_ [-> [_ [_ Hform]]]]]].
    apply Hform. reflexivity.
Defined.

(** C10 at a reply with one idea, which is returned, and at a reply with an
    empty ideas array, which makes the operation fail. *)
Lemma generatePromptIdeas_never_empty_witness :
  (1 <= length [JsString "A studio shot on dark slate."])%nat
  /\ outcome (@generatePromptIdeas (ideas_env no_idea) coffee_form [])
     = Rejected (new_Error invalid_ideas_message).
Proof.
  split.
  - apply (proj1 (@generatePromptIdeas_never_empty (ideas_env one_idea) coffee_form [])).
    reflexivity.
  - pose proof
      (proj2 (@generatePromptIdeas_never_empty (ideas_env no_idea) coffee_form []))
      as Hfails.
    edestruct Hfails as [_ Htext]; [cbv; left; reflexivity | reflexivity |].
    destruct (Htext ideas_json eq_refl eq_refl) as [_ [Hnone _]].
    apply (Hnone [("ideas", JsArray [])] eq_refl). right. right. reflexivity.
Defined.

(* ================================================================= *)
(** ** More on response normalisation *)

Lemma png_data_url_header (bytes : string) : has_png_header (png_data_url bytes) = true.
Proof. unfold has_png_header, png_data_url. cbn. destruct bytes; reflexivity. Qed.

Section Coverage.

Context {env : Environment}.

(** X1: the normalised result is never empty: whenever the function
    returns, the image or the text of its result is a non-empty string. *)
Theorem processApiResponse_never_empty (response : GenerateContentResponse)
    (result : EditResult) :
  processApiResponse response = Fulfilled result ->
  truthy_opt (result_image result) || truthy_opt (result_text result) = true.
Proof.
  intros Hresult. destruct (processApiResponse_returns response result Hresult) as [ps Hps].
  rewrite (processApiResponse_parts response ps Hps) in Hresult.
  injection Hresult as <-.
  destruct (fold_left scan_part ps (None, None)) as [image text].
  cbn [result_image result_text].
  destruct (truthy_opt image) eqn:Ei, (truthy_opt text) eqn:Et; cbn; rewrite ?Et;
    reflexivity.
Qed.

(** X2: an image result always starts with the header of a PNG data URL,
    and a text result is never the empty string. *)
Theorem processApiResponse_result_shape (response : GenerateContentResponse)
    (result : EditResult) :
  processApiResponse response = Fulfilled result ->
  (forall url, result_image result = Some url -> has_png_header url = true)
  /\ (forall t, result_text result = Some t -> truthy t = true).
Proof.
  intros Hresult. destruct (processApiResponse_returns response result Hresult) as [ps Hps].
  rewrite (processApiResponse_parts response ps Hps) in Hresult.
  injection Hresult as <-.
  rewrite scan_parts_last. cbn [result_image result_text]. split.
  - intros url. destruct (last_part carries_image _) as [part |]; [| discriminate].
    unfold image_of. destruct (part_inlineData part); [| discriminate].
    intros [= <-]. apply png_data_url_header.
  - intros t. destruct (last_part carries_text _) as [part |] eqn:Et.
    + apply last_part_carries in Et. unfold carries_text in Et.
      rewrite Et, andb_false_r. intros Ht. rewrite Ht in Et. exact Et.
    + cbn [truthy_opt negb]. rewrite andb_true_r.
      destruct (negb _); [intros [= <-]; reflexivity | discriminate].
Qed.

(** X3: normalisation reads the first candidate and nothing else: two
    responses with the same parts to look at have the same result, and so
    have two responses with the same first candidate, whatever their other
    candidates and their text. *)
Theorem processApiResponse_first_candidate_only (r1 r2 : GenerateContentResponse) :
  (forall ps,
      response_parts r1 = Some ps -> response_parts r2 = Some ps ->
      processApiResponse r1 = processApiResponse r2)
  /\ (first_candidate r1 = first_candidate r2 ->
      processApiResponse r1 = processApiResponse r2).
Proof.
  split.
  - intros ps H1 H2.
    rewrite (processApiResponse_parts r1 ps H1), (processApiResponse_parts r2 ps H2).
    reflexivity.
  - unfold first_candidate, processApiResponse.
    destruct (candidates r1) as [[| c1 rest1] |], (candidates r2) as [[| c2 rest2] |];
      try discriminate; try reflexivity.
    intros [= <-]. reflexivity.
Qed.

(** X23: when the first candidate has no content, or its content has no
    parts, the function does not return: it throws a TypeError, and the
    fixed message is not reached. *)
Theorem processApiResponse_unreadable (response : GenerateContentResponse) :
  response_parts response = None ->
  exists message,
    processApiResponse response = Rejected (ErrorObject "TypeError" message).
Proof.
  unfold processApiResponse, response_parts, read_parts.
  destruct (candidates response) as [[| candidate rest] |]; try discriminate.
  destruct (content candidate) as [c |].
  - destruct (parts c); [discriminate |]. intros _. eexists. reflexivity.
  - intros _. eexists. reflexivity.
Qed.

(* ================================================================= *)
(** ** More on the transport encoder and the seed canvas *)

Lemma file_part_resolved (file : File) :
  fileToGenerativePart (AFile file) None = resolve (file_part file).
Proof. reflexivity. Qed.

Lemma mask_part_resolved (maskBlob : Blob) :
  fileToGenerativePart (ABlob maskBlob) (Some "image/png") = resolve (mask_part maskBlob).
Proof. reflexivity. Qed.

Lemma file_parts_resolved (files : list File) :
  Promise_all (map (fun file => fileToGenerativePart (AFile file) None) files)
  = resolve (map file_part files).
Proof. exact (Promise_all_resolved file_part files). Qed.

(** X4: when the reader gives a data URL, a header and a payload around the
    first comma, and the payload has no comma, the part carries exactly the
    payload. *)
Theorem fileToGenerativePart_payload (file : FileOrBlob) (override : option string)
    (header payload : string) :
  readAsDataURL file = Some (header ++ String ","%char payload) ->
  occurs ","%char header = false ->
  occurs ","%char payload = false ->
  fileToGenerativePart file override
  = resolve (inline_part {| data := Some payload;
                            mimeType := finalMimeType file override |}).
Proof.
  intros Hread Hheader Hpayload. unfold fileToGenerativePart, base64EncodedData.
  rewrite Hread, (split_at_separator _ header payload Hheader),
    (split_without_separator _ payload Hpayload).
  reflexivity.
Qed.

(** X5: when the reader gives no string the part carries the empty string,
    and when it gives a string without a comma the part carries no data at
    all (undefined); in both cases the encoder still resolves. *)
Theorem fileToGenerativePart_no_payload (file : FileOrBlob) (override : option string) :
  (readAsDataURL file = None ->
   fileToGenerativePart file override
   = resolve (inline_part {| data := Some EmptyString;
                             mimeType := finalMimeType file override |}))
  /\ (forall result,
      readAsDataURL file = Some result -> occurs ","%char result = false ->
      fileToGenerativePart file override
      = resolve (inline_part {| data := None;
                                mimeType := finalMimeType file override |})).
Proof.
  unfold fileToGenerativePart, base64EncodedData. split.
  - intros ->. reflexivity.
  - intros result -> Hnone. rewrite (split_without_separator _ result Hnone). reflexivity.
Qed.

(** X7: for a ratio without a colon the height given to the canvas is
    [undefined * 100], that is NaN. *)
Theorem createBlankCanvas_without_colon (ratio : string) :
  occurs ":"%char ratio = false ->
  createBlankCanvas ratio
  = nth_error
      (split ","%char
         (canvas_toDataURL (PrimFloat.mul (Number ratio) 100%float) PrimFloat.nan)) 1.
Proof.
  intros Hnone. unfold createBlankCanvas.
  rewrite (split_without_separator _ ratio Hnone). reflexivity.
Qed.

(** X8: what follows a second colon is ignored: [w:h:rest] gives the canvas
    of [w:h]. *)
Theorem createBlankCanvas_ignores_rest (w h rest : string) :
  occurs ":"%char w = false -> occurs ":"%char h = false ->
  createBlankCanvas (w ++ String ":"%char (h ++ String ":"%char rest))
  = createBlankCanvas (w ++ String ":"%char h).
Proof.
  intros Hw Hh. unfold createBlankCanvas.
  rewrite (split_at_separator _ w (h ++ String ":"%char rest) Hw),
    (split_at_separator _ h rest Hh),
    (split_at_separator _ w h Hw), (split_without_separator _ h Hh).
  reflexivity.
Qed.

(* ================================================================= *)
(** ** More on the operations: what is sent and what comes back *)

Ltac encode_parts :=
  repeat first [ rewrite file_part_resolved | rewrite mask_part_resolved
               | rewrite file_parts_resolved | rewrite bind_resolve ].

(** An operation made of one generateContent call and a silent rest. *)
Lemma single_request_run {A : Type} (params : GenerateContentParameters)
    (k : GenerateContentResponse -> Async A) (label dflt : string) :
  (forall response, trace (k response) = []) ->
  try_catch (bind (ai_models_generateContent params) k) (log_and_rethrow label dflt)
  = match generateContent_reply params with
    | Fulfilled response =>
        match outcome (k response) with
        | Fulfilled a => ([Request_generateContent params], Fulfilled a)
        | Rejected error =>
            ([Request_generateContent params; Console_error label error],
             Rejected (new_Error (caught_message dflt error)))
        end
    | Rejected error =>
        ([Request_generateContent params; Console_error label error],
         Rejected (new_Error (caught_message dflt error)))
    end.
Proof.
  intros Hsilent. unfold ai_models_generateContent, bind.
  destruct (generateContent_reply params) as [response | error]; [| reflexivity].
  specialize (Hsilent response). destruct (k response) as [tr [a | error]];
    cbn in Hsilent; subst tr; reflexivity.
Qed.

Lemma editImage_unfolded (imageFile : File) (prompt : string) :
  editImage imageFile prompt
  = match generateContent_reply (edit_request imageFile prompt) with
    | Fulfilled response =>
        match processApiResponse response with
        | Fulfilled result =>
            ([Request_generateContent (edit_request imageFile prompt)], Fulfilled result)
        | Rejected error =>
            ([Request_generateContent (edit_request imageFile prompt);
              Console_error "Error editing image:" error],
             Rejected (new_Error (caught_message
               "An unexpected error occurred while communicating with the AI." error)))
        end
    | Rejected error =>
        ([Request_generateContent (edit_request imageFile prompt);
          Console_error "Error editing image:" error],
         Rejected (new_Error (caught_message
           "An unexpected error occurred while communicating with the AI." error)))
    end.
Proof.
  unfold editImage. encode_parts.
  rewrite single_request_run by reflexivity. fold (edit_request imageFile prompt).
  destruct (generateContent_reply _) as [response | error]; [| reflexivity].
  cbn [settle outcome snd]. destruct (processApiResponse response); reflexivity.
Qed.

Lemma editImageWithMask_unfolded (imageFile : File) (maskBlob : Blob) (prompt : string) :
  editImageWithMask imageFile maskBlob prompt
  = match generateContent_reply (mask_request imageFile maskBlob prompt) with
    | Fulfilled response =>
        match processApiResponse response with
        | Fulfilled result =>
            ([Request_generateContent (mask_request imageFile maskBlob prompt)],
             Fulfilled result)
        | Rejected error =>
            ([Request_generateContent (mask_request imageFile maskBlob prompt);
              Console_error "Error editing image with mask:" error],
             Rejected (new_Error (caught_message
               "An unexpected error occurred while communicating with the AI." error)))
        end
    | Rejected error =>
        ([Request_generateContent (mask_request imageFile maskBlob prompt);
          Console_error "Error editing image with mask:" error],
         Rejected (new_Error (caught_message
           "An unexpected error occurred while communicating with the AI." error)))
    end.
Proof.
  unfold editImageWithMask. encode_parts.
  rewrite single_request_run by reflexivity.
  fold (mask_request imageFile maskBlob prompt).
  destruct (generateContent_reply _) as [response | error]; [| reflexivity].
  cbn [settle outcome snd]. destruct (processApiResponse response); reflexivity.
Qed.

(** X9: editImage sends one request for every file and every prompt, the
    empty prompt included: on the image model, asking for image and text,
    with the encoded image first and the prompt as written second. Once the
    endpoint has answered, it returns the normalised answer and writes
    nothing to the console when normalisation returns; when normalisation
    throws, it writes the error to the console and fails with its message. *)
Theorem editImage_run (imageFile : File) (prompt : string) :
  exists imagePart params,
    fileToGenerativePart (AFile imageFile) None = resolve imagePart
    /\ params
       = {| content_model := "gemini-2.5-flash-image-preview";
            content_parts :=
              [imagePart; {| part_inlineData := None; part_text := Some prompt |}];
            content_config :=
              {| responseModalities := Some [IMAGE; TEXT];
                 responseMimeType := None;
                 responseSchema := None |} |}
    /\ requests (trace (editImage imageFile prompt)) = [Request_generateContent params]
    /\ (forall response result,
        generateContent_reply params = Fulfilled response ->
        processApiResponse response = Fulfilled result ->
        editImage imageFile prompt = ([Request_generateContent params], Fulfilled result))
    /\ (forall response name message,
        generateContent_reply params = Fulfilled response ->
        processApiResponse response = Rejected (ErrorObject name message) ->
        editImage imageFile prompt
        = ([Request_generateContent params;
            Console_error "Error editing image:" (ErrorObject name message)],
           Rejected (new_Error message))).
Proof.
  exists (file_part imageFile), (edit_request imageFile prompt).
  split; [reflexivity |]. split; [reflexivity |].
  rewrite editImage_unfolded. repeat split.
  - destruct (generateContent_reply _) as [response | error]; [| reflexivity].
    destruct (processApiResponse response); reflexivity.
  - intros response result -> ->. reflexivity.
  - intros response name message -> ->. reflexivity.
Qed.

(** X10: editImageWithMask sends one request on the image model, asking for
    image and text, with the encoded image, the encoded mask and the prompt,
    in this order; the mask is encoded under the override image/png and so
    labelled image/png whatever the type of the mask Blob. Once the endpoint
    has answered, it returns the normalised answer when normalisation
    returns; when normalisation throws, it writes the error to the console
    and fails with its message. *)
Theorem editImageWithMask_run (imageFile : File) (maskBlob : Blob) (prompt : string) :
  exists imagePart maskPart params,
    fileToGenerativePart (AFile imageFile) None = resolve imagePart
    /\ fileToGenerativePart (ABlob maskBlob) (Some "image/png") = resolve maskPart
    /\ part_mimeType maskPart = Some "image/png"
    /\ params
       = {| content_model := "gemini-2.5-flash-image-preview";
            content_parts :=
              [imagePart; maskPart;
               {| part_inlineData := None; part_text := Some prompt |}];
            content_config :=
              {| responseModalities := Some [IMAGE; TEXT];
                 responseMimeType := None;
                 responseSchema := None |} |}
    /\ requests (trace (editImageWithMask imageFile maskBlob prompt))
       = [Request_generateContent params]
    /\ (forall response result,
        generateContent_reply params = Fulfilled response ->
        processApiResponse response = Fulfilled result ->
        editImageWithMask imageFile maskBlob prompt
        = ([Request_generateContent params], Fulfilled result))
    /\ (forall response name message,
        generateContent_reply params = Fulfilled response ->
        processApiResponse response = Rejected (ErrorObject name message) ->
        editImageWithMask imageFile maskBlob prompt
        = ([Request_generateContent params;
            Console_error "Error editing image with mask:" (ErrorObject name message)],
           Rejected (new_Error message))).
Proof.
  exists (file_part imageFile), (mask_part maskBlob),
    (mask_request imageFile maskBlob prompt).
  split; [reflexivity |]. split; [reflexivity |]. split; [reflexivity |].
  split; [reflexivity |].
  rewrite editImageWithMask_unfolded. repeat split.
  - destruct (generateContent_reply _) as [response | error]; [| reflexivity].
    destruct (processApiResponse response); reflexivity.
  - intros response result -> ->. reflexivity.
  - intros response name message -> ->. reflexivity.
Qed.

Lemma getCreativeIdeas_silent_tail (response : GenerateContentResponse) :
  trace (let jsonString := response_text response in
         if truthy_opt jsonString then
           let* result := settle (JSON_parse (template_value jsonString)) in
           let* ideas := get_ideas result in
           resolve (if js_truthy ideas then ideas else JsNull)
         else resolve JsNull) = [].
Proof.
  cbv zeta. destruct (truthy_opt (response_text response)); [| reflexivity].
  apply parse_ideas_silent. reflexivity.
Qed.

Lemma getCreativeIdeas_unfolded (imageFile : File) :
  getCreativeIdeas imageFile
  = match generateContent_reply (creative_ideas_request imageFile) with
    | Fulfilled response =>
        match
          (if truthy_opt (response_text response) then
             match JSON_parse (template_value (response_text response)) with
             | Fulfilled result =>
                 match outcome (get_ideas result) with
                 | Fulfilled ideas => Fulfilled (if js_truthy ideas then ideas else JsNull)
                 | Rejected error => Rejected error
                 end
             | Rejected error => Rejected error
             end
           else Fulfilled JsNull)
        with
        | Fulfilled a =>
            ([Request_generateContent (creative_ideas_request imageFile)], Fulfilled a)
        | Rejected error =>
            ([Request_generateContent (creative_ideas_request imageFile);
              Console_error "Error getting creative ideas:" error],
             Rejected (new_Error (caught_message
               "An unexpected error occurred while generating ideas." error)))
        end
    | Rejected error =>
        ([Request_generateContent (creative_ideas_request imageFile);
          Console_error "Error getting creative ideas:" error],
         Rejected (new_Error (caught_message
           "An unexpected error occurred while generating ideas." error)))
    end.
Proof.
  unfold getCreativeIdeas. encode_parts.
  rewrite single_request_run by apply getCreativeIdeas_silent_tail.
  fold (creative_ideas_request imageFile).
  destruct (generateContent_reply _) as [response | error]; [| reflexivity].
  cbv zeta. destruct (truthy_opt (response_text response)); [| reflexivity].
  rewrite bind_outcome. cbn [settle outcome snd].
  destruct (JSON_parse _) as [result | error]; [| reflexivity].
  rewrite bind_outcome. destruct (outcome (get_ideas result)); reflexivity.
Qed.

(** X11: getCreativeIdeas sends one request for every file: on the model
    gemini-2.5-flash, the fixed instruction first and the encoded image
    second (the text comes first here), asking for JSON under the schema of
    an object whose ideas are an array of strings. *)
Theorem getCreativeIdeas_request (imageFile : File) :
  exists imagePart,
    fileToGenerativePart (AFile imageFile) None = resolve imagePart
    /\ requests (trace (getCreativeIdeas imageFile))
       = [Request_generateContent
            {| content_model := "gemini-2.5-flash";
               content_parts :=
                 [ {| part_inlineData := None;
                      part_text :=
                        Some "You are a creative photo editing assistant. Analyze the following image and provide 3-4 distinct, creative ideas for how to edit it. Each idea should be a short, actionable sentence that can be used as a prompt for an AI image editor. Return the ideas as a JSON array of strings." |};
                   imagePart ];
               content_config :=
                 {| responseModalities := None;
                    responseMimeType := Some "application/json";
                    responseSchema := Some (OBJECT [("ideas", ARRAY STRING None)]) |} |}].
Proof.
  exists (file_part imageFile). split; [reflexivity |].
  rewrite getCreativeIdeas_unfolded.
  destruct (generateContent_reply _) as [response | error]; [| reflexivity].
  destruct (if truthy_opt (response_text response) then _ else _); reflexivity.
Qed.

(** X12: getCreativeIdeas returns null, and does not fail, when the answer
    has no text or when the parsed object has no ideas or a falsy one; it
    returns a truthy ideas field as it is, without a test on it: an empty
    array is returned as an empty array. *)
Theorem getCreativeIdeas_result (imageFile : File) (response : GenerateContentResponse) :
  generateContent_reply (creative_ideas_request imageFile) = Fulfilled response ->
  (truthy_opt (response_text response) = false ->
   outcome (getCreativeIdeas imageFile) = Fulfilled JsNull)
  /\ (forall text properties,
      response_text response = Some text -> truthy text = true ->
      JSON_parse text = Fulfilled (JsObject properties) ->
      outcome (getCreativeIdeas imageFile)
      = Fulfilled (if js_truthy (own_property "ideas" properties)
                   then own_property "ideas" properties else JsNull)
      /\ (own_property "ideas" properties = JsArray [] ->
          outcome (getCreativeIdeas imageFile) = Fulfilled (JsArray []))).
Proof.
  intros Hreply. rewrite getCreativeIdeas_unfolded, Hreply. split.
  - intros ->. reflexivity.
  - intros text properties -> Htext Hparse. cbn [truthy_opt template_value].
    rewrite Htext, Hparse. cbn [get_ideas resolve outcome snd]. split.
    + reflexivity.
    + intros ->. reflexivity.
Qed.

(** X13: getCreativeIdeas fails when the text of the answer does not parse,
    with the message of the parse error, and when it parses to null, with
    the message of the TypeError raised by reading [ideas] of null. *)
Theorem getCreativeIdeas_failures (imageFile : File) (response : GenerateContentResponse)
    (text : string) :
  generateContent_reply (creative_ideas_request imageFile) = Fulfilled response ->
  response_text response = Some text -> truthy text = true ->
  (forall name message,
      JSON_parse text = Rejected (ErrorObject name message) ->
      outcome (getCreativeIdeas imageFile) = Rejected (new_Error message))
  /\ (JSON_parse text = Fulfilled JsNull ->
      outcome (getCreativeIdeas imageFile) = Rejected (new_Error TypeError_message)).
Proof.
  intros Hreply Hresponse Htext.
  rewrite getCreativeIdeas_unfolded, Hreply, Hresponse. cbn [truthy_opt template_value].
  rewrite Htext. split.
  - intros name message ->. reflexivity.
  - intros ->. reflexivity.
Qed.

(* ================================================================= *)
(** ** More on generateImages and generateImageWithReference *)

(** X14: generateImages never returns an empty list, every string it
    returns starts with the header of a PNG data URL, and it returns only
    for a prompt that is not made of white space. *)
Theorem generateImages_returns (prompt : string) (count : float) (ratio : AspectRatio)
    (urls : list string) :
  outcome (generateImages prompt count ratio) = Fulfilled urls ->
  urls <> []
  /\ Forall (fun url => has_png_header url = true) urls
  /\ all_white_space prompt = false.
Proof.
  unfold generateImages. rewrite try_catch_outcome.
  destruct (truthy (trim prompt)) eqn:Hprompt; cbn [negb]; [| discriminate].
  rewrite bind_outcome. cbn [ai_models_generateImages outcome snd].
  destruct (generateImages_reply _) as [response | error]; [| discriminate].
  destruct (generatedImages response) as [[| img imgs] |]; try discriminate.
  cbn [resolve outcome snd]. intros [= <-]. split; [discriminate |]. split.
  - constructor; [apply png_data_url_header |].
    apply Forall_map, Forall_forall. intros x _. apply png_data_url_header.
  - destruct (all_white_space prompt) eqn:Hblank; [| reflexivity].
    rewrite (blank_prompt_falsy prompt Hblank) in Hprompt. discriminate.
Qed.

Lemma result_image_some (response : GenerateContentResponse) (result : EditResult)
    (url : string) :
  processApiResponse response = Fulfilled result ->
  result_image result = Some url ->
  truthy url = true /\ has_png_header url = true.
Proof.
  intros Hresult. destruct (processApiResponse_returns response result Hresult) as [ps Hps].
  rewrite (processApiResponse_parts response ps Hps) in Hresult. injection Hresult as <-.
  rewrite scan_parts_last. cbn [result_image].
  destruct (last_part carries_image _) as [part |]; [| discriminate].
  unfold image_of. destruct (part_inlineData part); [| discriminate].
  intros [= <-]. split; [reflexivity | apply png_data_url_header].
Qed.

Lemma result_text_without_image (response : GenerateContentResponse) (result : EditResult) :
  processApiResponse response = Fulfilled result ->
  result_image result = None ->
  exists t, result_text result = Some t /\ truthy t = true.
Proof.
  intros Hresult. destruct (processApiResponse_returns response result Hresult) as [ps Hps].
  rewrite (processApiResponse_parts response ps Hps) in Hresult. injection Hresult as <-.
  rewrite scan_parts_last. cbn [result_image result_text].
  intros ->. cbn [truthy_opt negb andb].
  destruct (last_part carries_text _) as [part |] eqn:Et.
  - apply last_part_carries in Et. unfold carries_text in Et. rewrite Et. cbn [negb].
    destruct (part_text part) as [t |]; [| discriminate]. exists t. split; [reflexivity | exact Et].
  - exists no_content_message. split; reflexivity.
Qed.

(** X15: generateImageWithReference tests the file list first and the
    prompt second. With no file it fails with the message about the
    reference image, whatever the prompt; with files and a prompt of white
    space it fails with the message about the prompt. In both cases nothing
    is sent and the error is written to the console. *)
Theorem generateImageWithReference_validation (files : list File) (prompt ratio : string) :
  (files = [] ->
   generateImageWithReference files prompt ratio
   = ([Console_error "Error generating image with reference:"
         (new_Error "Please provide at least one reference image.")],
      Rejected (new_Error "Please provide at least one reference image.")))
  /\ (files <> [] -> all_white_space prompt = true ->
      generateImageWithReference files prompt ratio
      = ([Console_error "Error generating image with reference:"
            (new_Error "Prompt cannot be empty.")],
         Rejected (new_Error "Prompt cannot be empty."))).
Proof.
  unfold generateImageWithReference. split.
  - intros ->. reflexivity.
  - intros Hfiles Hblank. destruct files as [| file files]; [contradiction |].
    cbn [length Nat.eqb]. rewrite (blank_prompt_falsy prompt Hblank). reflexivity.
Qed.

Lemma generateImageWithReference_unfolded (files : list File) (prompt ratio : string) :
  files <> [] -> truthy (trim prompt) = true ->
  generateImageWithReference files prompt ratio
  = match generateContent_reply (reference_request files prompt ratio) with
    | Fulfilled response =>
        match processApiResponse response with
        | Fulfilled result =>
            match result_image result with
            | Some url =>
                ([Request_generateContent (reference_request files prompt ratio)],
                 Fulfilled [url])
            | None =>
                ([Request_generateContent (reference_request files prompt ratio);
                  Console_error "Error generating image with reference:"
                    (new_Error (template_value (result_text result)))],
                 Rejected (new_Error (template_value (result_text result))))
            end
        | Rejected error =>
            ([Request_generateContent (reference_request files prompt ratio);
              Console_error "Error generating image with reference:" error],
             Rejected (new_Error (caught_message
               "An unexpected error occurred while generating the image." error)))
        end
    | Rejected error =>
        ([Request_generateContent (reference_request files prompt ratio);
          Console_error "Error generating image with reference:" error],
         Rejected (new_Error (caught_message
           "An unexpected error occurred while generating the image." error)))
    end.
Proof.
  intros Hfiles Hprompt. unfold generateImageWithReference.
  destruct files as [| file files]; [contradiction |].
  cbn [length Nat.eqb]. rewrite Hprompt. cbn [negb]. cbv zeta. encode_parts.
  rewrite single_request_run by apply generateImageWithReference_silent_tail.
  fold (reference_request (file :: files) prompt ratio).
  destruct (generateContent_reply _) as [response | error]; [| reflexivity].
  rewrite bind_outcome. cbn [settle outcome snd].
  destruct (processApiResponse response) as [result | error] eqn:Hresult; [| reflexivity].
  destruct (result_image result) as [url |] eqn:Himage.
  - destruct (result_image_some response result url Hresult Himage) as [Htruthy _].
    cbn [truthy_opt]. rewrite Htruthy. reflexivity.
  - destruct (result_text_without_image response result Hresult Himage)
      as [t [Htext Htruthy]].
    rewrite Htext. cbn [truthy_opt]. rewrite Htruthy. reflexivity.
Qed.

(** The request of generateImageWithReference, when one is in its trace. *)
Lemma generateImageWithReference_sent (files : list File) (prompt ratio : string)
    (params : GenerateContentParameters) :
  In (Request_generateContent params)
     (trace (generateImageWithReference files prompt ratio)) ->
  files <> [] /\ truthy (trim prompt) = true
  /\ params = reference_request files prompt ratio.
Proof.
  intros Hin. unfold generateImageWithReference in Hin.
  apply in_try_catch_request in Hin; [| reflexivity].
  destruct files as [| file files]; [contradiction |].
  cbn [length Nat.eqb] in Hin.
  destruct (truthy (trim prompt)) eqn:Hprompt; cbn [negb] in Hin; [| contradiction].
  cbv zeta in Hin. rewrite file_parts_resolved, bind_resolve in Hin.
  match type of Hin with
  | In _ (trace (bind (ai_models_generateContent ?p) ?k)) =>
      destruct (generateContent_then p k generateImageWithReference_silent_tail)
        as [Htrace _]
  end.
  rewrite Htrace in Hin. destruct Hin as [Heq | []]. injection Heq as <-.
  split; [discriminate |]. split; reflexivity.
Qed.

(** X16: once the endpoint has answered its request, and normalisation
    has returned a result, generateImageWithReference returns the image of
    the result as a list of one, when there is one; when there is none it
    fails with the text of the result as message, which is always there: the
    message about an image that could not be generated is never used. When
    normalisation throws, it fails with the message of what was thrown. *)
Theorem generateImageWithReference_result (files : list File) (prompt ratio : string)
    (params : GenerateContentParameters) (response : GenerateContentResponse) :
  In (Request_generateContent params)
     (trace (generateImageWithReference files prompt ratio)) ->
  generateContent_reply params = Fulfilled response ->
  (forall result url,
      processApiResponse response = Fulfilled result ->
      result_image result = Some url ->
      generateImageWithReference files prompt ratio
      = ([Request_generateContent params], Fulfilled [url]))
  /\ (forall result,
      processApiResponse response = Fulfilled result ->
      result_image result = None ->
      exists t,
        result_text result = Some t
        /\ outcome (generateImageWithReference files prompt ratio)
           = Rejected (new_Error t))
  /\ (forall name message,
      processApiResponse response = Rejected (ErrorObject name message) ->
      outcome (generateImageWithReference files prompt ratio)
      = Rejected (new_Error message)).
Proof.
  intros Hin Hreply.
  destruct (generateImageWithReference_sent files prompt ratio params Hin)
    as [Hfiles [Hprompt ->]].
  rewrite (generateImageWithReference_unfolded files prompt ratio Hfiles Hprompt), Hreply.
  repeat split.
  - intros result url -> ->. reflexivity.
  - intros result Hresult Himage.
    destruct (result_text_without_image response result Hresult Himage) as [t [Htext _]].
    exists t. rewrite Hresult, Himage, Htext. split; reflexivity.
  - intros name message ->. reflexivity.
Qed.

(** X17: whenever generateImageWithReference returns, it returns exactly one
    string, which starts with the header of a PNG data URL. *)
Theorem generateImageWithReference_returns_one (files : list File) (prompt ratio : string)
    (urls : list string) :
  outcome (generateImageWithReference files prompt ratio) = Fulfilled urls ->
  exists url, urls = [url] /\ has_png_header url = true.
Proof.
  destruct files as [| file files]; [discriminate |].
  destruct (truthy (trim prompt)) eqn:Hprompt.
  - rewrite (generateImageWithReference_unfolded (file :: files) prompt ratio)
      by (discriminate || exact Hprompt).
    destruct (generateContent_reply _) as [response | error]; [| discriminate].
    destruct (processApiResponse response) as [result | error] eqn:Hresult;
      [| discriminate].
    destruct (result_image result) as [url |] eqn:Himage; [| discriminate].
    intros [= <-]. exists url. split; [reflexivity |].
    apply (result_image_some response result url Hresult Himage).
  - unfold generateImageWithReference. cbn [length Nat.eqb]. rewrite Hprompt. discriminate.
Qed.

(* ================================================================= *)
(** ** More on generatePromptIdeas *)

(** X18: with the three form fields empty and no reference image,
    generatePromptIdeas fails with the message asking for information,
    sends nothing and writes the error to the console. *)
Theorem generatePromptIdeas_validation (formData : PromptForm) :
  form_is_empty formData = true ->
  generatePromptIdeas formData []
  = ([Console_error "Error generating prompt ideas:"
        (new_Error
           "Please provide some information or a reference image to generate ideas.")],
     Rejected (new_Error
       "Please provide some information or a reference image to generate ideas.")).
Proof.
  rewrite form_is_empty_hasTextData. unfold generatePromptIdeas. cbv zeta.
  intros ->. reflexivity.
Qed.

(** X19: whenever a form field is not empty or a reference image is given,
    generatePromptIdeas sends one request on the model gemini-2.5-flash: an
    instruction text first, then the encoded reference images in the order
    of the list, asking for JSON under the schema of an object whose ideas
    are an array of strings, with its description. *)
Theorem generatePromptIdeas_request (formData : PromptForm) (referenceImages : list File) :
  form_is_empty formData = false \/ referenceImages <> [] ->
  exists instruction imageParts,
    Forall2 (fun file part => fileToGenerativePart (AFile file) None = resolve part)
      referenceImages imageParts
    /\ requests (trace (generatePromptIdeas formData referenceImages))
       = [Request_generateContent
            {| content_model := "gemini-2.5-flash";
               content_parts :=
                 {| part_inlineData := None; part_text := Some instruction |}
                 :: imageParts;
               content_config :=
                 {| responseModalities := None;
                    responseMimeType := Some "application/json";
                    responseSchema :=
                      Some (OBJECT
                        [("ideas",
                          ARRAY STRING
                            (Some "An array of 4 distinct and creative prompt ideas for product photography."))]) |} |}].
Proof.
  intros Hinput. eexists. exists (map file_part referenceImages).
  split; [exact (reference_parts_encoded referenceImages) |].
  unfold generatePromptIdeas.
  rewrite try_catch_requests. cbv zeta. rewrite <- !form_is_empty_hasTextData.
  assert (Hguard : form_is_empty formData && (length referenceImages =? 0)%nat = false).
  { destruct Hinput as [-> | Himages]; [reflexivity |].
    destruct referenceImages; [contradiction | apply andb_false_r]. }
  rewrite Hguard. encode_parts.
  match goal with
  | |- context [bind (ai_models_generateContent ?p) ?k] =>
      destruct (generateContent_then p k generatePromptIdeas_silent_tail) as [Htrace _]
  end.
  rewrite Htrace. reflexivity.
Qed.

(* ================================================================= *)
(** ** All operations: requests and console *)

Lemma try_catch_well_logged {A : Type} (body : Async A) (label dflt : string) :
  trace body = [] \/ (exists ev, is_request ev = true /\ trace body = [ev]) ->
  well_logged label dflt (try_catch body (log_and_rethrow label dflt)).
Proof.
  intros Hbody.
  assert (Hrequests : requests (trace body) = trace body
                      /\ console_lines (trace body) = []
                      /\ (length (trace body) <= 1)%nat).
  { destruct Hbody as [-> | [ev [Hev ->]]]; [repeat split; cbn; lia |].
    cbn. rewrite Hev. repeat split. cbn. lia. }
  destruct Hrequests as [Hrequests [Hconsole Hlength]].
  unfold well_logged. rewrite try_catch_requests, try_catch_trace, try_catch_outcome, Hrequests.
  destruct (outcome body) as [a | error]; repeat split.
  - exact Hlength.
  - intros _ _. rewrite app_nil_r. exact Hconsole.
  - discriminate.
  - exact Hlength.
  - discriminate.
  - intros reason [= <-]. exists error. split; reflexivity.
Qed.

Lemma tagged_well_logged {A : Type} (tag : A -> OperationResult) (m : Async A)
    (label dflt : string) :
  well_logged label dflt m -> well_logged label dflt (tagged tag m).
Proof.
  unfold well_logged. rewrite tagged_trace. intros [Hlength [Hfulfilled Hrejected]].
  repeat split.
  - exact Hlength.
  - destruct m as [tr [a | error]]; cbn; [intros _ _; exact (Hfulfilled a eq_refl) |
                                           discriminate].
  - intros reason Hreason. apply tagged_rejected_inv in Hreason.
    exact (Hrejected reason Hreason).
Qed.

Lemma generateContent_body {A : Type} (params : GenerateContentParameters)
    (k : GenerateContentResponse -> Async A) :
  (forall response, trace (k response) = []) ->
  trace (bind (ai_models_generateContent params) k) = []
  \/ (exists ev, is_request ev = true
                 /\ trace (bind (ai_models_generateContent params) k) = [ev]).
Proof.
  intros Hsilent. right. exists (Request_generateContent params).
  split; [reflexivity | apply (generateContent_then params k Hsilent)].
Qed.

Lemma generateImages_call_body {A : Type} (params : GenerateImagesParameters)
    (k : GenerateImagesResponse -> Async A) :
  (forall response, trace (k response) = []) ->
  trace (bind (ai_models_generateImages params) k) = []
  \/ (exists ev, is_request ev = true
                 /\ trace (bind (ai_models_generateImages params) k) = [ev]).
Proof.
  intros Hsilent. right. exists (Request_generateImages params).
  split; [reflexivity | apply (generateImages_then params k Hsilent)].
Qed.

Lemma run_well_logged (op : Operation) :
  well_logged (console_label op) (default_message op) (run op).
Proof.
  destruct op; cbn [run console_label default_message]; apply tagged_well_logged.
  - unfold editImage. apply try_catch_well_logged. encode_parts.
    apply generateContent_body. reflexivity.
  - unfold editImageWithMask. apply try_catch_well_logged. encode_parts.
    apply generateContent_body. reflexivity.
  - unfold getCreativeIdeas. apply try_catch_well_logged. encode_parts.
    apply generateContent_body. apply getCreativeIdeas_silent_tail.
  - unfold generateImages. apply try_catch_well_logged.
    destruct (negb (truthy (trim prompt))); [left; reflexivity |].
    apply generateImages_call_body. intros response.
    destruct (generatedImages response) as [[| img imgs] |]; reflexivity.
  - unfold generateImageWithReference. apply try_catch_well_logged.
    destruct (length files =? 0)%nat; [left; reflexivity |].
    destruct (negb (truthy (trim prompt))); [left; reflexivity |].
    cbv zeta. encode_parts.
    apply generateContent_body. apply generateImageWithReference_silent_tail.
  - unfold generatePromptIdeas. apply try_catch_well_logged. cbv zeta.
    destruct (_ && _); [left; reflexivity |]. encode_parts.
    apply generateContent_body. apply generatePromptIdeas_silent_tail.
Qed.

(** X20: no operation sends more than one request: there is no retry and
    no second call, whatever the inputs and the answers. *)
Theorem operation_sends_at_most_one (op : Operation) :
  (length (requests (trace (run op))) <= 1)%nat.
Proof. apply (run_well_logged op). Qed.

(** X21: an operation writes to the console exactly when it fails. When it
    returns, its trace has no console line. When it fails, its trace ends
    with one console line, after the request if one was sent, that carries
    the label of the operation and the value caught, of whatever class; the
    error the caller gets is the new Error made from that value. *)
Theorem operation_console (op : Operation) :
  (forall result,
      outcome (run op) = Fulfilled result -> console_lines (trace (run op)) = [])
  /\ (forall reason,
      outcome (run op) = Rejected reason ->
      exists thrown,
        trace (run op)
        = (requests (trace (run op)) ++ [Console_error (console_label op) thrown])%list
        /\ reason = new_Error (caught_message (default_message op) thrown)).
Proof. apply (run_well_logged op). Qed.

End Coverage.

(** X22: a part that carries neither binary payload nor text (a part with an
    empty text, say) changes nothing, wherever it stands among the parts. *)
Theorem processApiResponse_skips_empty_part {env : Environment}
    (r1 r2 : GenerateContentResponse) (before after : list Part) (part : Part) :
  carries_image part = false -> carries_text part = false ->
  response_parts r1 = Some (before ++ part :: after)%list ->
  response_parts r2 = Some (before ++ after)%list ->
  processApiResponse r1 = processApiResponse r2.
Proof.
  intros Himage Htext H1 H2.
  rewrite (processApiResponse_parts r1 _ H1), (processApiResponse_parts r2 _ H2),
    !fold_left_app.
  cbn [fold_left].
  destruct (fold_left scan_part before (None, None)) as [image text].
  unfold carries_image, carries_text in *. unfold scan_part at 2.
  destruct (part_inlineData part); [discriminate |]. rewrite Htext. reflexivity.
Qed.

(* ================================================================= *)
(** ** The further properties at sample inputs *)

Lemma processApiResponse_skips_empty_part_witness :
  @processApiResponse two_images_env
    (response_of_parts [text_part "first"; empty_text_part; text_part "second"])
  = @processApiResponse two_images_env two_text_parts.
Proof.
  apply (@processApiResponse_skips_empty_part two_images_env _ _
           [text_part "first"] [text_part "second"] empty_text_part); reflexivity.
Defined.

Lemma processApiResponse_never_empty_witness :
  truthy_opt (Some "data:image/png;base64,BBBB") || truthy_opt None = true.
Proof.
  exact (@processApiResponse_never_empty two_images_env two_binary_parts
           {| result_image := Some "data:image/png;base64,BBBB"; result_text := None |}
           eq_refl).
Defined.

Lemma processApiResponse_result_shape_witness :
  (forall url, Some "data:image/png;base64,BBBB" = Some url -> has_png_header url = true)
  /\ (forall t, @None string = Some t -> truthy t = true).
Proof.
  exact (@processApiResponse_result_shape two_images_env two_binary_parts
           {| result_image := Some "data:image/png;base64,BBBB"; result_text := None |}
           eq_refl).
Defined.

Lemma processApiResponse_first_candidate_only_witness :
  @processApiResponse two_images_env two_candidates
  = @processApiResponse two_images_env two_binary_parts.
Proof.
  apply (proj1 (@processApiResponse_first_candidate_only two_images_env
                  two_candidates two_binary_parts)
           [binary_part "AAAA" "image/jpeg"; binary_part "BBBB" "image/png"]);
    reflexivity.
Defined.

Lemma processApiResponse_unreadable_witness :
  (exists message,
      @processApiResponse two_images_env candidate_without_content
      = Rejected (ErrorObject "TypeError" message))
  /\ (exists message,
        @processApiResponse two_images_env content_without_parts
        = Rejected (ErrorObject "TypeError" message)).
Proof.
  split.
  - exact (@processApiResponse_unreadable two_images_env candidate_without_content eq_refl).
  - exact (@processApiResponse_unreadable two_images_env content_without_parts eq_refl).
Defined.

Lemma editImage_run_witness :
  outcome (@editImage (answering_env candidate_without_content) photo_jpeg "make it blue")
  = Rejected (new_Error "Cannot read properties of undefined (reading 'parts')").
Proof.
  destruct (@editImage_run (answering_env candidate_without_content) photo_jpeg
              "make it blue")
    as [imagePart [params [_ [_ [_ [_ Hthrows]]]]]].
  rewrite (Hthrows candidate_without_content "TypeError"
             "Cannot read properties of undefined (reading 'parts')" eq_refl eq_refl).
  reflexivity.
Defined.

Lemma fileToGenerativePart_payload_witness :
  @fileToGenerativePart two_images_env (AFile photo_jpeg) None
  = resolve (inline_part {| data := Some "/9j/4AAQ"; mimeType := "image/jpeg" |}).
Proof.
  apply (@fileToGenerativePart_payload two_images_env (AFile photo_jpeg) None
           "data:image/jpeg;base64" "/9j/4AAQ"); reflexivity.
Defined.

Lemma fileToGenerativePart_no_payload_witness :
  @fileToGenerativePart failed_reader_env (AFile photo_jpeg) None
  = resolve (inline_part {| data := Some EmptyString; mimeType := "image/jpeg" |})
  /\ @fileToGenerativePart odd_reader_env (AFile photo_jpeg) None
     = resolve (inline_part {| data := None; mimeType := "image/jpeg" |}).
Proof.
  split.
  - apply (proj1 (@fileToGenerativePart_no_payload failed_reader_env (AFile photo_jpeg)
                    None)). reflexivity.
  - apply (proj2 (@fileToGenerativePart_no_payload odd_reader_env (AFile photo_jpeg)
                    None) "data:"); reflexivity.
Defined.

Lemma createBlankCanvas_dimensions_witness :
  @createBlankCanvas two_images_env "16:9"
  = nth_error
      (split ","%char
         (@canvas_toDataURL two_images_env
            (PrimFloat.mul (@Number two_images_env "16") 100%float)
            (PrimFloat.mul (@Number two_images_env "9") 100%float))) 1.
Proof. exact (@createBlankCanvas_dimensions two_images_env "16" "9" eq_refl eq_refl). Defined.

Lemma createBlankCanvas_without_colon_witness :
  @createBlankCanvas two_images_env "16x9"
  = nth_error
      (split ","%char
         (@canvas_toDataURL two_images_env
            (PrimFloat.mul (@Number two_images_env "16x9") 100%float) PrimFloat.nan)) 1.
Proof. exact (@createBlankCanvas_without_colon two_images_env "16x9" eq_refl). Defined.

Lemma createBlankCanvas_ignores_rest_witness :
  @createBlankCanvas two_images_env "4:3:2" = @createBlankCanvas two_images_env "4:3".
Proof. exact (@createBlankCanvas_ignores_rest two_images_env "4" "3" "2" eq_refl eq_refl). Defined.

Lemma getCreativeIdeas_result_witness :
  outcome (@getCreativeIdeas (ideas_env no_idea) photo_jpeg) = Fulfilled (JsArray []).
Proof.
  apply (proj2 (proj2 (@getCreativeIdeas_result (ideas_env no_idea) photo_jpeg
                         {| candidates := None; response_text := Some ideas_json |}
                         eq_refl)
                  ideas_json [("ideas", JsArray [])] eq_refl eq_refl eq_refl)).
  reflexivity.
Defined.

Lemma getCreativeIdeas_failures_witness :
  outcome (@getCreativeIdeas (ideas_env JsNull) photo_jpeg)
  = Rejected (new_Error "Cannot read properties of null (reading 'ideas')").
Proof.
  apply (proj2 (@getCreativeIdeas_failures (ideas_env JsNull) photo_jpeg
                  {| candidates := None; response_text := Some ideas_json |}
                  ideas_json eq_refl eq_refl eq_refl)).
  reflexivity.
Defined.

Lemma generateImages_returns_witness :
  ["data:image/png;base64,iVBOR1"; "data:image/png;base64,iVBOR2"] <> []
  /\ Forall (fun url => has_png_header url = true)
       ["data:image/png;base64,iVBOR1"; "data:image/png;base64,iVBOR2"]
  /\ all_white_space "a red apple" = false.
Proof.
  exact (@generateImages_returns two_images_env "a red apple" 2%float Ratio_1_1
           ["data:image/png;base64,iVBOR1"; "data:image/png;base64,iVBOR2"] eq_refl).
Defined.

Lemma generateImageWithReference_validation_witness :
  @generateImageWithReference two_images_env [] "   " "1:1"
  = ([Console_error "Error generating image with reference:"
        (new_Error "Please provide at least one reference image.")],
     Rejected (new_Error "Please provide at least one reference image."))
  /\ @generateImageWithReference two_images_env [photo_jpeg] "   " "1:1"
     = ([Console_error "Error generating image with reference:"
           (new_Error "Prompt cannot be empty.")],
        Rejected (new_Error "Prompt cannot be empty.")).
Proof.
  split.
  - apply (proj1 (@generateImageWithReference_validation two_images_env [] "   " "1:1")).
    reflexivity.
  - apply (proj2 (@generateImageWithReference_validation two_images_env [photo_jpeg]
                    "   " "1:1")); [discriminate | reflexivity].
Defined.

Lemma generateImageWithReference_result_witness :
  @generateImageWithReference (answering_env two_binary_parts) [photo_jpeg] "a cat" "1:1"
  = ([Request_generateContent
        (@reference_request (answering_env two_binary_parts) [photo_jpeg] "a cat" "1:1")],
     Fulfilled ["data:image/png;base64,BBBB"])
  /\ (exists t,
        Some "I cannot draw that." = Some t
        /\ outcome (@generateImageWithReference (answering_env refusal) [photo_jpeg]
                      "a cat" "1:1")
           = Rejected (new_Error t))
  /\ outcome (@generateImageWithReference (answering_env candidate_without_content)
                [photo_jpeg] "a cat" "1:1")
     = Rejected (new_Error "Cannot read properties of undefined (reading 'parts')").
Proof.
  split; [| split].
  - apply (proj1 (@generateImageWithReference_result (answering_env two_binary_parts)
                    [photo_jpeg] "a cat" "1:1"
                    (@reference_request (answering_env two_binary_parts)
                       [photo_jpeg] "a cat" "1:1")
                    two_binary_parts (or_introl eq_refl) eq_refl)
             {| result_image := Some "data:image/png;base64,BBBB"; result_text := None |});
      reflexivity.
  - apply (proj1 (proj2 (@generateImageWithReference_result (answering_env refusal)
                    [photo_jpeg] "a cat" "1:1"
                    (@reference_request (answering_env refusal)
                       [photo_jpeg] "a cat" "1:1")
                    refusal (or_introl eq_refl) eq_refl))
             {| result_image := None; result_text := Some "I cannot draw that." |});
      reflexivity.
  - apply (proj2 (proj2 (@generateImageWithReference_result
                    (answering_env candidate_without_content)
                    [photo_jpeg] "a cat" "1:1"
                    (@reference_request (answering_env candidate_without_content)
                       [photo_jpeg] "a cat" "1:1")
                    candidate_without_content (or_introl eq_refl) eq_refl))
             "TypeError").
    reflexivity.
Defined.

Lemma generateImageWithReference_returns_one_witness :
  exists url, ["data:image/png;base64,BBBB"] = [url] /\ has_png_header url = true.
Proof.
  exact (@generateImageWithReference_returns_one (answering_env two_binary_parts)
           [photo_jpeg] "a cat" "1:1" ["data:image/png;base64,BBBB"] eq_refl).
Defined.

Lemma generatePromptIdeas_validation_witness :
  @generatePromptIdeas two_images_env empty_form []
  = ([Console_error "Error generating prompt ideas:"
        (new_Error
           "Please provide some information or a reference image to generate ideas.")],
     Rejected (new_Error
       "Please provide some information or a reference image to generate ideas.")).
Proof. exact (@generatePromptIdeas_validation two_images_env empty_form eq_refl). Defined.

Lemma generatePromptIdeas_request_witness :
  exists instruction imageParts,
    Forall2 (fun file part =>
               @fileToGenerativePart two_images_env (AFile file) None = resolve part)
      [photo_jpeg; untyped_file] imageParts
    /\ requests (trace (@generatePromptIdeas two_images_env empty_form
                          [photo_jpeg; untyped_file]))
       = [Request_generateContent
            {| content_model := "gemini-2.5-flash";
               content_parts :=
                 {| part_inlineData := None; part_text := Some instruction |}
                 :: imageParts;
               content_config :=
                 {| responseModalities := None;
                    responseMimeType := Some "application/json";
                    responseSchema :=
                      Some (OBJECT
                        [("ideas",
                          ARRAY STRING
                            (Some "An array of 4 distinct and creative prompt ideas for product photography."))]) |} |}].
Proof.
  apply (@generatePromptIdeas_request two_images_env empty_form [photo_jpeg; untyped_file]).
  right. discriminate.
Defined.
